(** * web_app.py: the upload front end of the mockup generator

    A shallow embedding of [src/web_app.py] and the properties its
    specification states about it.

    Text.  A Python [str] is modelled by a Rocq [string] whose characters
    are the code points 0..255 (Latin-1).  Python functions on text are
    embedded with the behaviour CPython has on that range.

    Platform.  [os.path] is [posixpath]: the separator is [/] and there is
    no alternative separator. *)

From Stdlib Require Import ZArith NArith Ascii String List Bool Lia.
From Stdlib Require Import Sorting.Sorted Sorting.Permutation.
From Stdlib Require Floats.PrimFloat.
From Stdlib Require Import Numbers.DecimalString Numbers.DecimalPos Numbers.DecimalZ.
From stdpp Require Import base gmap strings list fin_maps.

Open Scope Z_scope.

(** ** Characters and text *)

Module Text.

Definition code (c : ascii) : N := N_of_ascii c.

Definition chars (s : string) : list ascii := list_ascii_of_string s.
Definition text (l : list ascii) : string := string_of_list_ascii l.

(** [Py_UNICODE_ISSPACE]: what [str.strip()] removes and what [int()]
    turns into a blank in a text that is not pure ASCII. *)
Definition is_unicode_space (c : ascii) : bool :=
  let n := code c in
  ((9 <=? n) && (n <=? 13) || (28 <=? n) && (n <=? 32)
   || (n =? 133) || (n =? 160))%N.

(** [Py_ISSPACE]: the blanks [int()] skips around a literal. *)
Definition is_ascii_space (c : ascii) : bool :=
  let n := code c in ((9 <=? n) && (n <=? 13) || (n =? 32))%N.

(** [str.lower()] on one character: A-Z and the Latin-1 capitals
    U+00C0..U+00DE (the multiplication sign U+00D7 apart) move up by 32. *)
Definition lower_char (c : ascii) : ascii :=
  let n := code c in
  if ((65 <=? n) && (n <=? 90)
      || (192 <=? n) && (n <=? 222) && negb (n =? 215))%N
  then ascii_of_N (n + 32) else c.

Fixpoint lower (s : string) : string :=
  match s with
  | EmptyString => EmptyString
  | String c s' => String (lower_char c) (lower s')
  end.

(** [s.lstrip(chars)] and [s.rstrip(chars)] for a set of characters given
    by its membership test. *)
Fixpoint lstrip_chars (p : ascii → bool) (l : list ascii) : list ascii :=
  match l with
  | c :: l' => if p c then lstrip_chars p l' else l
  | [] => []
  end.

Definition rstrip_chars (p : ascii → bool) (l : list ascii) : list ascii :=
  rev (lstrip_chars p (rev l)).

(** [s.strip()] *)
Definition strip (s : string) : string :=
  text (rstrip_chars is_unicode_space (lstrip_chars is_unicode_space (chars s))).

(** [s.lstrip("#")] *)
Definition lstrip_hash (s : string) : string :=
  text (lstrip_chars (λ c, bool_decide (c = "#"%char)) (chars s)).

(** [s[i:j]] for [0 <= i <= j]. *)
Definition slice (i j : nat) (s : string) : string :=
  text (take (j - i) (drop i (chars s))).

(** [s.rfind(c)]: the index of the last occurrence of [c], or -1. *)
Fixpoint rfind_from (c : ascii) (l : list ascii) (i last : Z) : Z :=
  match l with
  | [] => last
  | x :: l' => rfind_from c l' (i + 1) (if bool_decide (x = c) then i else last)
  end.

Definition rfind (c : ascii) (s : string) : Z := rfind_from c (chars s) 0 (-1).

End Text.

(** ** os.path *)

Module OsPath.
Import Text.

Definition sep : ascii := "/"%char.
Definition extsep : ascii := "."%char.

(** The loop of [genericpath._splitext] that skips the leading dots of the
    last component: [n] characters, from [filenameIndex] up to [dotIndex],
    are still to be looked at; the answer says whether one of them is not a
    dot, in which case the path is split at [dotIndex]. *)
Fixpoint skip_leading_dots (l : list ascii) (filenameIndex n : nat) : bool :=
  match n with
  | O => false
  | S n' =>
      match l !! filenameIndex with
      | Some c =>
          if bool_decide (c ≠ extsep) then true
          else skip_leading_dots l (S filenameIndex) n'
      | None => true
      end
  end.

(** [os.path.splitext(p)] *)
Definition splitext (p : string) : string * string :=
  let sepIndex := rfind sep p in
  let dotIndex := rfind extsep p in
  if bool_decide (sepIndex < dotIndex) then
    let filenameIndex := Z.to_nat (sepIndex + 1) in
    if skip_leading_dots (chars p) filenameIndex (Z.to_nat dotIndex - filenameIndex)
    then (text (take (Z.to_nat dotIndex) (chars p)),
          text (drop (Z.to_nat dotIndex) (chars p)))
    else (p, EmptyString)
  else (p, EmptyString).

(** [os.path.join(a, p)] for two components. *)
Definition join (a p : string) : string :=
  match p with
  | String c _ =>
      if bool_decide (c = sep) then p
      else match rev (chars a) with
           | [] => p
           | last :: _ => if bool_decide (last = sep) then a +:+ p
                          else a +:+ String sep p
           end
  | EmptyString =>
      match rev (chars a) with
      | [] => EmptyString
      | last :: _ => if bool_decide (last = sep) then a else a +:+ String sep ""
      end
  end.

(** [os.path.split(p)]: the path is cut after its last separator; the
    separators at the end of the head are dropped, unless the head is made
    of separators only. *)
Definition split (p : string) : string * string :=
  let i := Z.to_nat (rfind sep p + 1) in
  let head := take i (chars p) in
  let tail := drop i (chars p) in
  let is_sep := λ c, bool_decide (c = sep) in
  let head :=
    if negb (bool_decide (head = [])) && negb (forallb is_sep head)
    then rstrip_chars is_sep head else head in
  (text head, text tail).

End OsPath.

(** ** The allow-list of image files *)

Definition ALLOWED_EXTENSIONS : gset string := {[ ".png"; ".jpg"; ".jpeg" ]}.

Definition allowed_file (filename : string) : bool :=
  if bool_decide (filename = "") then false
  else
    let ext := Text.lower (OsPath.splitext filename).2 in
    bool_decide (ext ∈ ALLOWED_EXTENSIONS).

(** ** Exceptions *)

(** The exceptions the front end can raise on its own account. *)
Inductive exn : Type :=
| HexLengthError
    (* ValueError("Hex color must have 6 characters.") *)
| InvalidLiteral (base : N) (literal : string)
    (* ValueError: invalid literal for int() with base ... *)
| MaxStrDigitsError
    (* ValueError: Exceeds the limit for integer string conversion *)
| IntOfNoneError
    (* TypeError: int() argument must be a string ..., not 'NoneType' *)
| FileNotFoundError (path : string).

#[global] Instance exn_eq_dec : EqDecision exn.
Proof. solve_decision. Defined.

(** A computation that returns a value or raises. *)
Definition result (A : Type) : Type := exn + A.

Definition raise {A} (e : exn) : result A := inl e.

#[global] Instance result_ret : MRet result := λ A x, inr x.
#[global] Instance result_bind : MBind result := λ A B f m,
  match m with
  | inl e => inl e
  | inr x => f x
  end.

(** ** int() on text *)

Module PyLong.
Import Text.

(** [_PyLong_DigitValue]: 37 stands for "not a digit in any base". *)
Definition digit_value (c : ascii) : N :=
  let n := code c in
  if ((48 <=? n) && (n <=? 57))%N then (n - 48)%N
  else if ((97 <=? n) && (n <=? 122))%N then (n - 87)%N
  else if ((65 <=? n) && (n <=? 90))%N then (n - 55)%N
  else 37%N.

Definition is_ascii_text (l : list ascii) : bool :=
  forallb (λ c, (code c <? 128)%N) l.

(** [_PyUnicode_TransformDecimalAndSpaceToASCII]: a text that is not pure
    ASCII has its spaces turned into blanks; its first other character from
    127 up becomes a question mark, at which the text is cut (no character
    of 127..255 is a decimal digit). *)
Fixpoint transform_chars (l : list ascii) : list ascii :=
  match l with
  | [] => []
  | c :: l' =>
      if (code c <? 127)%N then c :: transform_chars l'
      else if is_unicode_space c then " "%char :: transform_chars l'
      else ["?"%char]
  end.

Definition transform_decimal_and_space (l : list ascii) : list ascii :=
  if is_ascii_text l then l else transform_chars l.

(** The scan over digits and single underscores.  [None] is a syntax error
    (two underscores in a row, or one at the end); otherwise the value read,
    the number of digits and the rest of the text. *)
Fixpoint scan_digits (base : N) (l : list ascii) (prev_underscore : bool)
    (acc : Z) (digits : N) : option (Z * N * list ascii) :=
  match l with
  | c :: l' =>
      if bool_decide (c = "_"%char) then
        if prev_underscore then None
        else scan_digits base l' true acc digits
      else if (digit_value c <? base)%N then
        scan_digits base l' false
          (acc * Z.of_N base + Z.of_N (digit_value c)) (digits + 1)%N
      else if prev_underscore then None
      else Some (acc, digits, l)
  | [] => if prev_underscore then None else Some (acc, digits, [])
  end.

Definition skip_sign (l : list ascii) : bool * list ascii :=
  match l with
  | c :: l' =>
      if bool_decide (c = "+"%char) then (false, l')
      else if bool_decide (c = "-"%char) then (true, l')
      else (false, l)
  | [] => (false, [])
  end.

(** The [0x] prefix a base-16 literal may carry, and the one underscore
    allowed after it. *)
Definition skip_prefix (base : N) (l : list ascii) : list ascii :=
  match l with
  | z :: x :: l' =>
      if bool_decide (z = "0"%char)
         && (base =? 16)%N
         && (bool_decide (x = "x"%char) || bool_decide (x = "X"%char))
      then match l' with
           | u :: l'' => if bool_decide (u = "_"%char) then l'' else l'
           | [] => []
           end
      else l
  | _ => l
  end.

Definition starts_with_underscore (l : list ascii) : bool :=
  match l with
  | c :: _ => bool_decide (c = "_"%char)
  | [] => false
  end.

Definition is_binary_base (base : N) : bool :=
  (N.land base (base - 1) =? 0)%N.

Section limit.
(** [sys.get_int_max_str_digits()]: 0 switches the limit off, and the
    interpreter takes no other value below 640.  Interpreters without the
    limit are the case 0. *)
Variable max_str_digits : N.

(** [int(s, base)] for a text [s], after [PyLong_FromUnicodeObject] and
    [PyLong_FromString]. *)
Definition int_of_str (base : N) (s : string) : result Z :=
  let invalid := raise (InvalidLiteral base s) in
  let l := lstrip_chars is_ascii_space (transform_decimal_and_space (chars s)) in
  let '(negative, l) := skip_sign l in
  let l := skip_prefix base l in
  if starts_with_underscore l then invalid
  else
    match scan_digits base l false 0 0 with
    | None => invalid
    | Some (value, digits, rest) =>
        if negb (is_binary_base base)
           && (0 <? max_str_digits)%N && (max_str_digits <? digits)%N
        then raise MaxStrDigitsError
        else if (digits =? 0)%N then invalid
        else
          match lstrip_chars is_ascii_space rest with
          | [] => mret (if negative then - value else value)
          | _ :: _ => invalid
          end
    end.

(** [int(x)] for what [form.get] gives: a text or [None]. *)
Definition int_of (x : option string) : result Z :=
  match x with
  | None => raise IntOfNoneError
  | Some s => int_of_str 10 s
  end.
End limit.

End PyLong.

(** ** Values the detector hands back *)

(** The Python values a component of the detector's answer can be: [None], a
    truth value, an integer, a float, or a tuple of integers. *)
Inductive pyval : Type :=
| PyNone
| PyBool (b : bool)
| PyInt (z : Z)
| PyFloat (f : PrimFloat.float)
| PyTuple (items : list Z).

(** The truth value Python gives a value in [if] and [and]. *)
Definition truthy (v : pyval) : bool :=
  match v with
  | PyNone => false
  | PyBool b => b
  | PyInt z => negb (z =? 0)
  | PyFloat f => negb (PrimFloat.eqb f PrimFloat.zero)
  | PyTuple items => negb (bool_decide (items = []))
  end.



Definition color : Type := Z * Z * Z.

(** The tuple [calculate_parameters] returns:
    [bbox, height, width, rotation]. *)
Definition detection : Type := pyval * pyval * pyval * pyval.

(** An entry of the parameters mapping. *)
Record geometry : Type := Geometry {
  bbox : pyval;
  height : pyval;
  width : pyval;
  rotation : pyval;
}.

(** ** Files and requests *)

Definition content : Type := list Byte.byte.

(** A directory holds files by name; the file system holds directories by
    path, those above a directory beside it, each under the path by which
    the front end names it.  Only the files of a directory are listed by
    the front end, so a directory's entry in its parent is not recorded. *)
Abbreviation directory := (gmap string content).
Abbreviation filesystem := (gmap string (gmap string content)).

(** An uploaded file (werkzeug's [FileStorage]). *)
Record upload : Type := Upload {
  upload_filename : option string;
  upload_data : content;
}.

Inductive http_method : Type := GET | POST.

Record request : Type := Request {
  method : http_method;
  form : gmap string string;
  files : gmap string (list upload);
}.

(** [request.files.getlist(key)] *)
Definition getlist (r : request) (key : string) : list upload :=
  default [] (files r !! key).

(** What the page shows as its error: a fixed text, or [str(exc)]. *)
Inductive message : Type :=
| Message (s : string)
| StrOf (e : exn).

(** The arguments [render_template_string] gets, and the status sent. *)
Record response : Type := Response {
  error : option message;
  outputs : option (list string);
  job_id : option string;
  status : nat;
}.

(** ** Commands on the file system *)

(** A command runs on a file system, leaves a file system, and returns or
    raises. *)
Definition io (A : Type) : Type := filesystem → result A * filesystem.

#[global] Instance io_ret : MRet io := λ A x fs, (inr x, fs).
#[global] Instance io_bind : MBind io := λ A B f m fs,
  match m fs with
  | (inl e, fs') => (inl e, fs')
  | (inr x, fs') => f x fs'
  end.

Definition io_raise {A} (e : exn) : io A := λ fs, (inl e, fs).

(** [os.mkdir(name)] as [os.makedirs(name, exist_ok=True)] calls it: a
    directory that is there already is left as it is. *)
Definition mkdir_exist_ok (name : string) (fs : filesystem) : filesystem :=
  <[name := default ∅ (fs !! name)]> fs.

(** How [os.makedirs] cuts its path: at the last separator, and once more
    when nothing follows that separator. *)
Definition makedirs_split (name : string) : string * string :=
  let '(head, tail) := OsPath.split name in
  if bool_decide (tail = "") then OsPath.split head else (head, tail).

(** The body of [os.makedirs(name, exist_ok=True)]: when the directory above
    [name] is missing it is made first, by the same function, and then
    [name] itself.  Every call within is on a shorter path; [depth] counts
    the calls still allowed, and the length of [name] is enough. *)
Fixpoint makedirs_within (depth : nat) (name : string) (fs : filesystem)
    : filesystem :=
  let '(head, tail) := makedirs_split name in
  if bool_decide (head ≠ "") && bool_decide (tail ≠ "")
     && negb (bool_decide (is_Some (fs !! head)))
  then
    match depth with
    | O => fs
    | S depth' =>
        let fs' := makedirs_within depth' head fs in
        if bool_decide (tail = ".") then fs' else mkdir_exist_ok name fs'
    end
  else mkdir_exist_ok name fs.

Definition makedirs (name : string) (fs : filesystem) : filesystem :=
  makedirs_within (String.length name) name fs.

(** [os.makedirs(path, exist_ok=True)] *)
Definition os_makedirs (path : string) : io unit := λ fs,
  (inr (), makedirs path fs).

(** [f.save(os.path.join(target_dir, name))] for a [name] without a
    separator: the file [name] of the directory [target_dir] is created or
    overwritten. *)
Definition save (f : upload) (target_dir name : string) : io unit := λ fs,
  match fs !! target_dir with
  | None => (inl (FileNotFoundError (OsPath.join target_dir name)), fs)
  | Some entries => (inr (), <[target_dir := <[name := upload_data f]> entries]> fs)
  end.

(** ** sorted(names, key=str.lower) *)

(** Python's sort is stable and compares keys with [<]. *)
Fixpoint insert_sorted (key : string → string) (x : string) (l : list string)
    : list string :=
  match l with
  | [] => [x]
  | y :: l' =>
      if String.ltb (key y) (key x) then y :: insert_sorted key x l'
      else x :: y :: l'
  end.

Definition sorted (key : string → string) (l : list string) : list string :=
  foldr (insert_sorted key) [] l.

(** Where a run of [index] stands when it comes to call [create_mockups]:
    either it has already returned a page, or the job is ready. *)
Inductive prepared : Type :=
| Replied (page : response)
| Ready (design_dir mockup_dir : string) (parameters : gmap string geometry)
    (output_dir : string).

(** [os.path.join(a, *p)]: the components are joined one after the other. *)
Definition os_path_join (a : string) (p : list string) : string :=
  foldl OsPath.join a p.

(** ** The front end *)

Section web_app.
Import Text.

(** The interpreter's limit on the digits of a decimal literal. *)
Variable max_str_digits : N.

(** [RUNS_DIR], the directory under which every job gets its own. *)
Variable RUNS_DIR : string.

(** The order in which [os.listdir] enumerates a directory. *)
Variable listdir_order : directory → list string.

(** [werkzeug.utils.secure_filename] *)
Variable secure_filename : string → string.

(** [calculate_parameters(image_path, target_color)], the detector of
    [calculate_box_pos.py], on the files as they are stored.
    Modelled from the spec: the detector is a pure function of the image
    and the color that returns its answer, a failed detection included,
    and does not raise. *)
Variable calculate_parameters : filesystem → string → color → detection.

(** [create_mockups(design_dir, mockup_dir, parameters, output_dir)] of
    [create_mockups.py].
    Modelled from the spec: the renderer writes the images it can produce
    and skips the others; it returns and leaves a file system. *)
Variable create_mockups :
  string → string → gmap string geometry → string → filesystem → filesystem.

(** The value [uuid.uuid4().hex] takes in the request at hand. *)
Variable uuid4_hex : string.

(** [os.listdir(path)] *)
Definition os_listdir (path : string) : io (list string) := λ fs,
  match fs !! path with
  | None => (inl (FileNotFoundError path), fs)
  | Some entries => (inr (listdir_order entries), fs)
  end.

Definition parse_color (form : gmap string string) : result color :=
  let hex_color := strip (default "" (form !! "hex_color")) in
  if bool_decide (hex_color ≠ "") then
    let hex_color := lstrip_hash hex_color in
    if bool_decide (String.length hex_color ≠ 6%nat) then raise HexLengthError
    else
      r ← PyLong.int_of_str max_str_digits 16 (slice 0 2 hex_color);
      g ← PyLong.int_of_str max_str_digits 16 (slice 2 4 hex_color);
      b ← PyLong.int_of_str max_str_digits 16 (slice 4 6 hex_color);
      mret (r, g, b)
  else
    r ← PyLong.int_of max_str_digits (form !! "r");
    g ← PyLong.int_of max_str_digits (form !! "g");
    b ← PyLong.int_of max_str_digits (form !! "b");
    mret (r, g, b).

(** The state of the loop of [build_parameters]: the mapping under
    construction and, as a record of the run, the calls made to the
    detector so far, oldest first. *)
Record build_state : Type := BuildState {
  parameters : gmap string geometry;
  detector_calls : list (string * color);
}.

(** One turn of the loop of [build_parameters]. *)
Definition build_parameters_step (fs : filesystem) (box_dir : string)
    (target_color : color) (st : build_state) (filename : string) : build_state :=
  if negb (allowed_file filename) then st
  else
    let image_path := OsPath.join box_dir filename in
    let '(bbox, height, width, rotation) :=
      calculate_parameters fs image_path target_color in
    let calls := detector_calls st ++ [(image_path, target_color)] in
    if truthy bbox && truthy height && truthy width then
      BuildState
        (<[filename := Geometry bbox height width rotation]> (parameters st))
        calls
    else BuildState (parameters st) calls.

(** The body of [build_parameters]: the loop over [os.listdir(box_dir)],
    with the record of the detector calls kept beside the mapping. *)
Definition build_parameters_run (box_dir : string) (target_color : color)
    : io build_state := λ fs,
  (listing ← os_listdir box_dir;
   mret (foldl (build_parameters_step fs box_dir target_color)
               (BuildState ∅ []) listing)) fs.

(** [build_parameters(box_dir, target_color)]: what the loop returns is the
    mapping. *)
Definition build_parameters (box_dir : string) (target_color : color)
    : io (gmap string geometry) :=
  st ← build_parameters_run box_dir target_color; mret (parameters st).

(** One turn of the loop of [save_files]. *)
Definition save_files_step (target_dir : string) (saved_any : bool) (f : upload)
    : io bool :=
  match upload_filename f with
  | None => mret saved_any
  | Some name =>
      if bool_decide (name = "") then mret saved_any
      else
        let filename := secure_filename name in
        if negb (allowed_file filename) then mret saved_any
        else save f target_dir filename;; mret true
  end.

Fixpoint save_files_loop (files : list upload) (target_dir : string)
    (saved_any : bool) : io bool :=
  match files with
  | [] => mret saved_any
  | f :: files' =>
      saved_any ← save_files_step target_dir saved_any f;
      save_files_loop files' target_dir saved_any
  end.

Definition save_files (files : list upload) (target_dir : string) : io bool :=
  save_files_loop files target_dir false.

Definition error_page (e : message) : response :=
  Response (Some e) None None 400.

Definition NO_UPLOADS : message :=
  Message "Please upload at least one file for designs, mockups, and box mockups.".
Definition NO_VALID_IMAGES : message :=
  Message "No valid image files found. Use PNG or JPG files.".
Definition NO_BOXES : message :=
  Message "Could not detect any target boxes in the box mockups.".
Definition NO_OUTPUTS : message :=
  Message "No output images were generated. Check that filenames match between mockups and box mockups.".

(** The end of [index], from the listing of the output directory on. *)
Definition index_finish (output_dir : string) : io response :=
  listing ← os_listdir output_dir;
  let outputs := sorted lower (filter (λ name, allowed_file name = true) listing) in
  if bool_decide (outputs = []) then mret (error_page NO_OUTPUTS)
  else mret (Response None (Some outputs) (Some uuid4_hex) 200).

(** [index()], the handler of [/]. *)
Definition index (request : request) : io response :=
  match method request with
  | GET => mret (Response None None None 200)
  | POST =>
      match parse_color (form request) with
      | inl exc => mret (error_page (StrOf exc))
      | inr target_color =>
          let box_files := getlist request "box_mockups" in
          let mockup_files := getlist request "mockups" in
          let design_files := getlist request "designs" in
          if bool_decide (box_files = []) || bool_decide (mockup_files = [])
             || bool_decide (design_files = [])
          then mret (error_page NO_UPLOADS)
          else
            let job_id := uuid4_hex in
            let job_dir := OsPath.join RUNS_DIR job_id in
            let box_dir := OsPath.join job_dir "box_mockups" in
            let mockup_dir := OsPath.join job_dir "mockups" in
            let design_dir := OsPath.join job_dir "designs" in
            let output_dir := OsPath.join job_dir "output" in
            os_makedirs box_dir;;
            os_makedirs mockup_dir;;
            os_makedirs design_dir;;
            os_makedirs output_dir;;
            saved_designs ← save_files design_files design_dir;
            saved_mockups ← save_files mockup_files mockup_dir;
            saved_boxes ← save_files box_files box_dir;
            if negb (saved_designs && saved_mockups && saved_boxes)
            then mret (error_page NO_VALID_IMAGES)
            else
              parameters ← build_parameters box_dir target_color;
              if bool_decide (parameters = ∅) then mret (error_page NO_BOXES)
              else
                (λ fs, (inr (), create_mockups design_dir mockup_dir parameters
                                  output_dir fs));;
                index_finish output_dir
      end
  end.

(** [index()] up to its call of [create_mockups]. *)
Definition index_prepare (request : request) : io prepared :=
  match method request with
  | GET => mret (Replied (Response None None None 200))
  | POST =>
      match parse_color (form request) with
      | inl exc => mret (Replied (error_page (StrOf exc)))
      | inr target_color =>
          let box_files := getlist request "box_mockups" in
          let mockup_files := getlist request "mockups" in
          let design_files := getlist request "designs" in
          if bool_decide (box_files = []) || bool_decide (mockup_files = [])
             || bool_decide (design_files = [])
          then mret (Replied (error_page NO_UPLOADS))
          else
            let job_id := uuid4_hex in
            let job_dir := OsPath.join RUNS_DIR job_id in
            let box_dir := OsPath.join job_dir "box_mockups" in
            let mockup_dir := OsPath.join job_dir "mockups" in
            let design_dir := OsPath.join job_dir "designs" in
            let output_dir := OsPath.join job_dir "output" in
            os_makedirs box_dir;;
            os_makedirs mockup_dir;;
            os_makedirs design_dir;;
            os_makedirs output_dir;;
            saved_designs ← save_files design_files design_dir;
            saved_mockups ← save_files mockup_files mockup_dir;
            saved_boxes ← save_files box_files box_dir;
            if negb (saved_designs && saved_mockups && saved_boxes)
            then mret (Replied (error_page NO_VALID_IMAGES))
            else
              parameters ← build_parameters box_dir target_color;
              if bool_decide (parameters = ∅) then mret (Replied (error_page NO_BOXES))
              else mret (Ready design_dir mockup_dir parameters output_dir)
      end
  end.

(** [flask.send_from_directory(directory, filename)], and the kind of
    answer it gives. *)
Variable file_response : Type.
Variable send_from_directory : string → string → io file_response.

(** [serve_output(job_id, filename)], the handler of
    [/runs/<job_id>/output/<path:filename>]. *)
Definition serve_output (job_id filename : string) : io file_response :=
  let directory := os_path_join RUNS_DIR [job_id; "output"] in
  send_from_directory directory filename.

End web_app.

(** ** Notions the statements use *)

(** The test [build_parameters] makes on the detector's answer:
    [bbox and height and width]. *)
Definition found (d : detection) : bool :=
  let '(bbox, height, width, _) := d in truthy bbox && truthy height && truthy width.

(** The entry [build_parameters] stores for an answer. *)
Definition geometry_of (d : detection) : geometry :=
  let '(bbox, height, width, rotation) := d in Geometry bbox height width rotation.


(** What [int(s, 16)] reads in a text [s] of two characters: two
    hexadecimal digits, or one digit with a sign or a blank before it, or one
    digit with a blank after it. *)
Definition is_hex_digit (c : ascii) : bool := (PyLong.digit_value c <? 16)%N.

Definition is_literal_space (c : ascii) : bool :=
  Text.is_ascii_space c || (Text.code c =? 133)%N || (Text.code c =? 160)%N.

Definition hex_value (c : ascii) : Z := Z.of_N (PyLong.digit_value c).

Definition hex_pair_value (c1 c2 : ascii) : option Z :=
  if is_hex_digit c1 && is_hex_digit c2 then Some (16 * hex_value c1 + hex_value c2)
  else if is_hex_digit c2
          && (bool_decide (c1 = "+"%char) || is_literal_space c1)
       then Some (hex_value c2)
  else if is_hex_digit c2 && bool_decide (c1 = "-"%char) then Some (- hex_value c2)
  else if is_hex_digit c1 && is_literal_space c2 then Some (hex_value c1)
  else None.

Definition pair (c1 c2 : ascii) : string := String c1 (String c2 "").




(** What [int(pair, 16)] gives for a pair of characters. *)
Definition read_hex_pair (c1 c2 : ascii) : result Z :=
  match hex_pair_value c1 c2 with
  | Some v => inr v
  | None => inl (InvalidLiteral 16 (pair c1 c2))
  end.

(** The hex color field of a form, the blanks around it stripped. *)
Definition hex_field (form : gmap string string) : string :=
  Text.strip (default "" (form !! "hex_color")).

(** A text with its one optional leading [#] removed. *)
Definition without_leading_hash (s : string) : string :=
  match s with
  | String c s' => if bool_decide (c = "#"%char) then s' else s
  | EmptyString => s
  end.

(** Whether a text starts with [#]. *)
Definition starts_with_hash (s : string) : bool :=
  match s with
  | String c _ => bool_decide (c = "#"%char)
  | EmptyString => false
  end.

(** An ASCII character that is neither a hexadecimal digit, nor a sign, nor
    a blank. *)
Definition outside_hex_literal (c : ascii) : bool :=
  (Text.code c <? 128)%N && negb (is_hex_digit c)
  && negb (bool_decide (c = "+"%char)) && negb (bool_decide (c = "-"%char))
  && negb (Text.is_ascii_space c).

(** Exactly six hexadecimal characters. *)
Definition six_hex_digits (s : string) : bool :=
  bool_decide (String.length s = 6%nat) && forallb is_hex_digit (Text.chars s).

(** The triple decoded from three successive pairs of hexadecimal digits. *)
Definition decode_hex (s : string) : color :=
  match Text.chars s with
  | [c1; c2; c3; c4; c5; c6] =>
      (16 * hex_value c1 + hex_value c2, 16 * hex_value c3 + hex_value c4,
       16 * hex_value c5 + hex_value c6)
  | _ => (0, 0, 0)
  end.

Definition in_byte_range (z : Z) : Prop := 0 ≤ z ≤ 255.

(** The name under which [save_files] would store an upload. *)
Definition stored_name (secure_filename : string → string) (f : upload) : string :=
  secure_filename (default "" (upload_filename f)).

(** The test [save_files] makes on an upload's name once sanitized. *)
Definition accepted (secure_filename : string → string) (f : upload) : Prop :=
  allowed_file (stored_name secure_filename f) = true.

#[global] Instance accepted_dec secure_filename f : Decision (accepted secure_filename f).
Proof. unfold accepted. apply _. Defined.

(** Writing an upload into a directory under its sanitized name. *)
Definition store (secure_filename : string → string) (target_dir : string)
    (fs : filesystem) (f : upload) : filesystem :=
  <[target_dir := <[stored_name secure_filename f := upload_data f]>
                    (default ∅ (fs !! target_dir))]> fs.

(** The extension of a file name, as [os.path.splitext] cuts it. *)
Definition extension (filename : string) : string := (OsPath.splitext filename).2.

(** Names sorted without regard to case. *)
Definition lower_le (a b : string) : Prop := String.le (Text.lower a) (Text.lower b).

(** The hexadecimal digit of a number below 16. *)
Definition hex_digit (n : Z) : ascii :=
  match n with
  | 0 => "0" | 1 => "1" | 2 => "2" | 3 => "3" | 4 => "4" | 5 => "5" | 6 => "6"
  | 7 => "7" | 8 => "8" | 9 => "9" | 10 => "a" | 11 => "b" | 12 => "c"
  | 13 => "d" | 14 => "e" | _ => "f"
  end%char.

(** A color written as six hexadecimal digits. *)
Definition hex_text (c : color) : string :=
  let '(r, g, b) := c in
  Text.text [hex_digit (r / 16); hex_digit (r mod 16);
             hex_digit (g / 16); hex_digit (g mod 16);
             hex_digit (b / 16); hex_digit (b mod 16)].

(** A directory with an upload written into it under its sanitized name. *)
Definition put (secure_filename : string → string) (entries : directory)
    (f : upload) : directory :=
  <[stored_name secure_filename f := upload_data f]> entries.

(** The data of the last upload of a list that is stored under a name. *)
Fixpoint last_data (secure_filename : string → string) (name : string)
    (files : list upload) : option content :=
  match files with
  | [] => None
  | f :: files' =>
      match last_data secure_filename name files' with
      | Some d => Some d
      | None =>
          if bool_decide (stored_name secure_filename f = name)
          then Some (upload_data f) else None
      end
  end.

(** A path leads to another when the other starts with it, as it does with
    itself and with every directory above it. *)
Definition leads_to (dir path : string) : Prop :=
  Text.chars dir `prefix_of` Text.chars path.

(** The file system once the uploads that pass the test are written. *)
Definition saved (secure_filename : string → string) (files : list upload)
    (target_dir : string) (fs : filesystem) : filesystem :=
  foldl (store secure_filename target_dir) fs (filter (accepted secure_filename) files).

(** Whether one upload of a list passes the test. *)
Definition has_accepted (secure_filename : string → string) (files : list upload)
    : bool :=
  negb (bool_decide (filter (accepted secure_filename) files = [])).

(** The four directories of a job. *)
Definition job_box_dir (RUNS_DIR uuid4_hex : string) : string :=
  OsPath.join (OsPath.join RUNS_DIR uuid4_hex) "box_mockups".
Definition job_mockup_dir (RUNS_DIR uuid4_hex : string) : string :=
  OsPath.join (OsPath.join RUNS_DIR uuid4_hex) "mockups".
Definition job_design_dir (RUNS_DIR uuid4_hex : string) : string :=
  OsPath.join (OsPath.join RUNS_DIR uuid4_hex) "designs".
Definition job_output_dir (RUNS_DIR uuid4_hex : string) : string :=
  OsPath.join (OsPath.join RUNS_DIR uuid4_hex) "output".

(** The file system once the directories of the job are made and the uploads
    of a request written to them. *)
Definition job_files (RUNS_DIR : string) (secure_filename : string → string)
    (uuid4_hex : string) (r : request) (fs : filesystem) : filesystem :=
  saved secure_filename (getlist r "box_mockups") (job_box_dir RUNS_DIR uuid4_hex)
    (saved secure_filename (getlist r "mockups") (job_mockup_dir RUNS_DIR uuid4_hex)
       (saved secure_filename (getlist r "designs") (job_design_dir RUNS_DIR uuid4_hex)
          (makedirs (job_output_dir RUNS_DIR uuid4_hex)
             (makedirs (job_design_dir RUNS_DIR uuid4_hex)
                (makedirs (job_mockup_dir RUNS_DIR uuid4_hex)
                   (makedirs (job_box_dir RUNS_DIR uuid4_hex) fs)))))).

(** A test run over all 256 characters. *)
Definition forall_bool (f : bool → bool) : bool := f true && f false.

Definition forall_ascii (f : ascii → bool) : bool :=
  forall_bool (λ b0, forall_bool (λ b1, forall_bool (λ b2, forall_bool (λ b3,
  forall_bool (λ b4, forall_bool (λ b5, forall_bool (λ b6, forall_bool (λ b7,
    f (Ascii b0 b1 b2 b3 b4 b5 b6 b7))))))))).

(** ** A small installation, to run the front end on *)

Module Sample.

Definition listdir_order (entries : directory) : list string :=
  (map_to_list entries).*1.

(** Keeps the letters, digits, underscores, dots and dashes of a name. *)
Definition safe_char (c : ascii) : bool :=
  let n := Text.code c in
  ((48 <=? n) && (n <=? 57) || (65 <=? n) && (n <=? 90)
   || (97 <=? n) && (n <=? 122) || (n =? 95) || (n =? 46) || (n =? 45))%N.

Definition secure_filename (name : string) : string :=
  Text.text (List.filter safe_char (Text.chars name)).

Definition RUNS_DIR : string := "runs".
Definition uuid4_hex : string := "job1".
Definition box_dir : string := "runs/job1/box_mockups".

Definition mug_box : detection :=
  (PyTuple [75; 85; 50; 30], PyInt 30, PyInt 50, PyFloat PrimFloat.zero).
Definition not_found : detection := (PyNone, PyNone, PyNone, PyNone).

(** Finds the box of [mug.png] and no other. *)
Definition calculate_parameters (fs : filesystem) (image_path : string)
    (target_color : color) : detection :=
  if bool_decide (image_path = "runs/job1/box_mockups/mug.png") then mug_box
  else not_found.

(** Writes one image for every box-mockup that has a geometry. *)
Definition create_mockups (design_dir mockup_dir : string)
    (parameters : gmap string geometry) (output_dir : string)
    (fs : filesystem) : filesystem :=
  <[output_dir := ((λ _, []) <$> parameters) ∪ default ∅ (fs !! output_dir)]> fs.

(** Leaves images whose names differ in case, and a file that is no image. *)
Definition mixed_outputs : directory :=
  {[ "b.png" := []; "A.png" := []; "C.JPG" := []; "a.jpeg" := []; "notes.txt" := [] ]}.

Definition create_mockups_mixed (design_dir mockup_dir : string)
    (parameters : gmap string geometry) (output_dir : string)
    (fs : filesystem) : filesystem :=
  <[output_dir := mixed_outputs]> fs.

(** Renders nothing. *)
Definition create_mockups_nothing (design_dir mockup_dir : string)
    (parameters : gmap string geometry) (output_dir : string)
    (fs : filesystem) : filesystem := fs.

Definition boxes : filesystem :=
  {[ box_dir := {[ "mug.png" := []; "shirt.jpg" := []; "notes.txt" := [] ]} ]}.

Definition red : color := (255, 0, 0).

Definition png (name : string) : upload := Upload (Some name) [].

Definition good_request : request :=
  Request POST {[ "hex_color" := "#FF0000" ]}
    {[ "designs" := [png "logo.png"];
       "mockups" := [png "mug.png"; png "shirt.jpg"];
       "box_mockups" := [png "mug.png"; png "shirt.jpg"; png "notes.txt"] ]}.

(** The files of the job once the uploads of [good_request] are saved, where
    there was nothing before. *)
Definition prepared_files : filesystem :=
  {[ "runs" := ∅;
     "runs/job1" := ∅;
     "runs/job1/designs" := {[ "logo.png" := [] ]};
     "runs/job1/mockups" := {[ "mug.png" := []; "shirt.jpg" := [] ]};
     "runs/job1/box_mockups" := {[ "mug.png" := []; "shirt.jpg" := [] ]};
     "runs/job1/output" := ∅ ]}.

Definition bad_color_request : request :=
  Request POST {[ "hex_color" := "#FF00" ]}
    {[ "designs" := [png "logo.png"];
       "mockups" := [png "mug.png"];
       "box_mockups" := [png "mug.png"] ]}.

(** The same names, enumerated the other way round. *)
Definition listdir_order_reversed (entries : directory) : list string :=
  rev (listdir_order entries).

(** Finds no box, whatever the image. *)
Definition calculate_parameters_blind (fs : filesystem) (image_path : string)
    (target_color : color) : detection := not_found.

(** A request whose designs are no images. *)
Definition no_image_request : request :=
  Request POST {[ "hex_color" := "#FF0000" ]}
    {[ "designs" := [png "notes.txt"];
       "mockups" := [png "mug.png"];
       "box_mockups" := [png "mug.png"] ]}.

(** The files [no_image_request] leaves behind. *)
Definition no_image_files : filesystem :=
  {[ "runs" := ∅;
     "runs/job1" := ∅;
     "runs/job1/designs" := ∅;
     "runs/job1/mockups" := {[ "mug.png" := [] ]};
     "runs/job1/box_mockups" := {[ "mug.png" := [] ]};
     "runs/job1/output" := ∅ ]}.

(** A request without uploads. *)
Definition no_upload_request : request :=
  Request POST {[ "hex_color" := "#FF0000" ]} ∅.

(** Two uploads of one name, with different data. *)
Definition first_mug : upload := Upload (Some "mug.png") [Byte.x01].
Definition second_mug : upload := Upload (Some "mug.png") [Byte.x02].

(** Files of somebody else. *)
Definition other_files : filesystem := {[ "elsewhere" := {[ "keep.txt" := [] ]} ]}.

End Sample.

(** * Properties *)

(** ** Text *)

Section text_facts.
Import Text.

Lemma text_chars s : text (chars s) = s.
Proof. apply string_of_list_ascii_of_string. Qed.

Lemma chars_text l : chars (text l) = l.
Proof. apply list_ascii_of_string_of_list_ascii. Qed.

Lemma chars_length s : length (chars s) = String.length s.
Proof. induction s; simpl; congruence. Qed.

Lemma chars_nil s : chars s = [] ↔ s = "".
Proof. destruct s; simpl; split; congruence. Qed.

Lemma forall_bool_spec f : forall_bool f = true → ∀ b, f b = true.
Proof. unfold forall_bool. intros [??]%andb_true_iff []; done. Qed.

Lemma forall_ascii_spec f : forall_ascii f = true → ∀ c, f c = true.
Proof.
  unfold forall_ascii. intros H [b0 b1 b2 b3 b4 b5 b6 b7].
  apply forall_bool_spec with (b := b0) in H.
  apply forall_bool_spec with (b := b1) in H.
  apply forall_bool_spec with (b := b2) in H.
  apply forall_bool_spec with (b := b3) in H.
  apply forall_bool_spec with (b := b4) in H.
  apply forall_bool_spec with (b := b5) in H.
  apply forall_bool_spec with (b := b6) in H.
  by apply forall_bool_spec with (b := b7) in H.
Qed.

Lemma text_app l1 l2 : text (l1 ++ l2) = text l1 +:+ text l2.
Proof. induction l1 as [|c l1 IH]; simpl; [done|]. by rewrite IH. Qed.

(** [os.path.splitext] cuts a path in two and loses nothing. *)
Lemma splitext_concat p :
  (OsPath.splitext p).1 +:+ (OsPath.splitext p).2 = p.
Proof.
  assert (p +:+ "" = p) as Hnil.
  { rewrite <- (text_chars p) at 1. change "" with (text []).
    by rewrite <- text_app, app_nil_r, text_chars. }
  unfold OsPath.splitext. case_bool_decide; [|done].
  destruct (OsPath.skip_leading_dots _ _ _); [|done]. simpl.
  by rewrite <- text_app, take_drop, text_chars.
Qed.

End text_facts.


(** ** int() *)

Section int_facts.
Import Text PyLong.
Variable max_str_digits : N.

(** The limit on digits plays no part in bases that are powers of two. *)
Lemma int_of_str_binary_base base s :
  is_binary_base base = true →
  int_of_str max_str_digits base s = int_of_str 0 base s.
Proof.
  intros Hb. unfold int_of_str. rewrite Hb. simpl.
  destruct (skip_sign _) as [negative l].
  destruct (starts_with_underscore _); [done|].
  by destruct (scan_digits _ _ _ _ _) as [[[value digits] rest]|].
Qed.

(** [int(s, 16)] on every text of two characters. *)
Lemma int_of_str_hex_pair c1 c2 :
  int_of_str max_str_digits 16 (pair c1 c2) =
    match hex_pair_value c1 c2 with
    | Some v => inr v
    | None => inl (InvalidLiteral 16 (pair c1 c2))
    end.
Proof.
  rewrite int_of_str_binary_base by done.
  pose (check := λ c1 c2 : ascii,
    bool_decide (int_of_str 0 16 (pair c1 c2) =
      match hex_pair_value c1 c2 with
      | Some v => inr v
      | None => inl (InvalidLiteral 16 (pair c1 c2))
      end)).
  assert (forall_ascii (λ c1, forall_ascii (λ c2, check c1 c2)) = true) as H
    by (vm_compute; reflexivity).
  apply forall_ascii_spec with (c := c1) in H.
  apply forall_ascii_spec with (c := c2) in H.
  by apply bool_decide_eq_true in H.
Qed.

Lemma int_of_str_hex_digits c1 c2 :
  is_hex_digit c1 = true → is_hex_digit c2 = true →
  int_of_str max_str_digits 16 (pair c1 c2) = inr (16 * hex_value c1 + hex_value c2).
Proof.
  intros H1 H2. rewrite int_of_str_hex_pair. unfold hex_pair_value.
  by rewrite H1, H2.
Qed.

(** *** Decimal literals *)













End int_facts.

(** ** parse_color *)

Section parse_color_facts.
Import Text PyLong.
Variable max_str_digits : N.

(** Without a hex color the three fields are read with [int()]. *)
Lemma parse_color_rgb form :
  hex_field form = "" →
  parse_color max_str_digits form =
    (r ← int_of max_str_digits (form !! "r");
     g ← int_of max_str_digits (form !! "g");
     b ← int_of max_str_digits (form !! "b");
     mret (r, g, b)).
Proof.
  unfold hex_field, parse_color. intros ->.
  by rewrite bool_decide_false by (intros H; by apply H).
Qed.

(** With a hex color the three fields are not looked at. *)
Lemma parse_color_hex form :
  hex_field form ≠ "" →
  parse_color max_str_digits form =
    let hex_color := lstrip_hash (hex_field form) in
    if bool_decide (String.length hex_color ≠ 6%nat) then raise HexLengthError
    else
      r ← int_of_str max_str_digits 16 (slice 0 2 hex_color);
      g ← int_of_str max_str_digits 16 (slice 2 4 hex_color);
      b ← int_of_str max_str_digits 16 (slice 4 6 hex_color);
      mret (r, g, b).
Proof.
  unfold hex_field, parse_color. intros H.
  by rewrite bool_decide_true by done.
Qed.


(** A field with at most one leading [#] loses it, and nothing else, to
    [lstrip("#")]. *)
Lemma lstrip_hash_once s :
  starts_with_hash (without_leading_hash s) = false →
  lstrip_hash s = without_leading_hash s.
Proof.
  assert (∀ s', starts_with_hash s' = false →
            lstrip_chars (λ c, bool_decide (c = "#"%char)) (chars s') = chars s')
    as Hkeep.
  { intros [|c s'] Hc; [done|]. simpl in *. by rewrite Hc. }
  unfold lstrip_hash. destruct s as [|c s]; [done|]. cbn [without_leading_hash].
  case_bool_decide as Hc; intros Hs.
  - simpl. rewrite bool_decide_true by done. rewrite Hkeep by done. apply text_chars.
  - rewrite Hkeep by done. apply text_chars.
Qed.

(** A pair that holds an ASCII character other than a hexadecimal digit, a
    sign and a blank is no literal of [int(pair, 16)], whatever its other
    character. *)
Lemma hex_pair_value_outside c1 c2 :
  outside_hex_literal c1 || outside_hex_literal c2 = true →
  hex_pair_value c1 c2 = None.
Proof.
  assert (forall_ascii (λ c1, forall_ascii (λ c2,
            implb (outside_hex_literal c1 || outside_hex_literal c2)
                  (match hex_pair_value c1 c2 with None => true | Some _ => false end)))
          = true) as Hall by (vm_compute; reflexivity).
  intros Hout.
  pose proof (forall_ascii_spec _ (forall_ascii_spec _ Hall c1) c2) as Hpair.
  simpl in Hpair. rewrite Hout in Hpair. simpl in Hpair.
  by destruct (hex_pair_value c1 c2).
Qed.

(** C5, as amended.  For every form whose hex color field, once the blanks
    around it are stripped, is not empty and carries at most one leading
    [#], let [s] be the stripped field without that [#].  [parse_color]
    returns the triple decoded from the three successive pairs of
    hexadecimal digits when [s] is exactly six hexadecimal characters; it
    raises when [s] is not six characters long, and when one of its six
    characters is an ASCII character other than a hexadecimal digit, a sign
    and a blank. *)
Theorem parse_color_hex_field form :
  hex_field form ≠ "" →
  let s := without_leading_hash (hex_field form) in
  starts_with_hash s = false →
  (six_hex_digits s = true → parse_color max_str_digits form = inr (decode_hex s)) ∧
  (String.length s ≠ 6%nat → parse_color max_str_digits form = inl HexLengthError) ∧
  (String.length s = 6%nat → existsb outside_hex_literal (chars s) = true →
   ∃ literal, parse_color max_str_digits form = inl (InvalidLiteral 16 literal)).
Proof.
  intros Hhex s Hhash.
  assert (lstrip_hash (hex_field form) = s) as Hs by (by apply lstrip_hash_once).
  assert (∀ c1 c2 c3 c4 c5 c6,
     chars s = [c1; c2; c3; c4; c5; c6] →
     parse_color max_str_digits form =
       (r ← read_hex_pair c1 c2; g ← read_hex_pair c3 c4;
        b ← read_hex_pair c5 c6; mret (r, g, b))) as Hpairs.
  { intros c1 c2 c3 c4 c5 c6 Hchars. rewrite parse_color_hex by done.
    rewrite Hs. cbv zeta.
    assert (s = text [c1; c2; c3; c4; c5; c6]) as ->
      by (by rewrite <- Hchars, text_chars).
    rewrite bool_decide_false by (intros H; by apply H).
    change (slice 0 2 _) with (pair c1 c2).
    change (slice 2 4 _) with (pair c3 c4).
    change (slice 4 6 _) with (pair c5 c6).
    by rewrite !int_of_str_hex_pair. }
  split_and!.
  - unfold six_hex_digits. intros [Hlen Hdigits]%andb_true_iff.
    apply bool_decide_eq_true in Hlen. rewrite <- chars_length in Hlen.
    unfold decode_hex.
    destruct (chars s) as [|c1 [|c2 [|c3 [|c4 [|c5 [|c6 [|]]]]]]] eqn:Hchars; try done.
    rewrite (Hpairs _ _ _ _ _ _ eq_refl). simpl in Hdigits.
    repeat (apply andb_true_iff in Hdigits as [? Hdigits]).
    unfold read_hex_pair, hex_pair_value.
    repeat match goal with H : is_hex_digit _ = true |- _ => rewrite H; clear H end.
    done.
  - intros Hlen. rewrite parse_color_hex by done. rewrite Hs. cbv zeta.
    by rewrite bool_decide_true.
  - intros Hlen Hout. rewrite <- chars_length in Hlen.
    destruct (chars s) as [|c1 [|c2 [|c3 [|c4 [|c5 [|c6 [|]]]]]]] eqn:Hchars; try done.
    rewrite (Hpairs _ _ _ _ _ _ eq_refl).
    assert (hex_pair_value c1 c2 = None ∨ hex_pair_value c3 c4 = None
            ∨ hex_pair_value c5 c6 = None) as Hnone.
    { cbn [existsb] in Hout. rewrite orb_false_r in Hout.
      repeat (apply orb_true_iff in Hout as [Hout|Hout]);
        [left|left|right; left|right; left|right; right|right; right];
        apply hex_pair_value_outside; rewrite Hout; by rewrite ?orb_true_r. }
    unfold read_hex_pair.
    destruct (hex_pair_value c1 c2); [|by eexists].
    destruct (hex_pair_value c3 c4); [|by eexists].
    destruct (hex_pair_value c5 c6); [|by eexists].
    by destruct Hnone as [?|[?|?]].
Qed.

(** C9, as amended.  Two forms with the same hex color field, not empty
    once the blanks around it are stripped, get the same result from
    [parse_color], whatever their fields [r], [g], [b] hold. *)
Theorem parse_color_hex_ignores_rgb form1 form2 :
  form1 !! "hex_color" = form2 !! "hex_color" →
  hex_field form1 ≠ "" →
  parse_color max_str_digits form1 = parse_color max_str_digits form2.
Proof.
  intros Hsame Hhex.
  assert (hex_field form2 = hex_field form1) as Hfield
    by (unfold hex_field; by rewrite Hsame).
  rewrite !parse_color_hex by (by rewrite ?Hfield). by rewrite Hfield.
Qed.

End parse_color_facts.

(** ** build_parameters *)

Section build_parameters_facts.
Variable listdir_order : directory → list string.
Variable calculate_parameters : filesystem → string → color → detection.

(** A directory is enumerated name by name, each name once. *)
Hypothesis listdir_order_spec :
  ∀ entries : directory, listdir_order entries ≡ₚ (map_to_list entries).*1.

Variable fs : filesystem.
Variable box_dir : string.
Variable target_color : color.

Local Abbreviation step := (build_parameters_step calculate_parameters fs box_dir target_color).
Local Abbreviation detect filename :=
  (calculate_parameters fs (OsPath.join box_dir filename) target_color).
Local Abbreviation call filename := (OsPath.join box_dir filename, target_color).

Lemma build_parameters_step_skip st filename :
  allowed_file filename = false → step st filename = st.
Proof. intros H. unfold build_parameters_step. by rewrite H. Qed.

Lemma build_parameters_step_detect st filename :
  allowed_file filename = true →
  step st filename =
    BuildState
      (if found (detect filename)
       then <[filename := geometry_of (detect filename)]> (parameters st)
       else parameters st)
      (detector_calls st ++ [call filename]).
Proof.
  intros H. unfold build_parameters_step. rewrite H. simpl.
  destruct (detect filename) as [[[b h] w] r]. simpl.
  by destruct (truthy b && truthy h && truthy w).
Qed.

Lemma build_loop_calls listing st :
  detector_calls (foldl step st listing) =
    detector_calls st
      ++ map (λ filename, call filename)
             (filter (λ filename, allowed_file filename = true) listing).
Proof.
  revert st. induction listing as [|x listing IH]; intros st; simpl.
  - by rewrite app_nil_r.
  - rewrite IH. destruct (allowed_file x) eqn:Hx.
    + rewrite build_parameters_step_detect by done. simpl.
      rewrite filter_cons_True by done. simpl. by rewrite <- app_assoc.
    + rewrite build_parameters_step_skip by done.
      rewrite filter_cons_False; [done|]. by rewrite Hx.
Qed.

Lemma build_loop_lookup listing st filename :
  parameters (foldl step st listing) !! filename =
    if decide (filename ∈ listing ∧ allowed_file filename = true
               ∧ found (detect filename) = true)
    then Some (geometry_of (detect filename))
    else parameters st !! filename.
Proof.
  revert st. induction listing as [|x listing IH]; intros st; cbn [foldl].
  - rewrite decide_False; [done|]. intros [H _]. by apply elem_of_nil in H.
  - rewrite IH. clear IH.
    destruct (decide (filename ∈ listing ∧ _)) as [Hin|Hin].
    + rewrite decide_True; [done|]. destruct Hin as (? & ? & ?).
      split_and!; try done. by apply elem_of_cons; right.
    + destruct (allowed_file x) eqn:Hx.
      * rewrite build_parameters_step_detect by done. simpl.
        destruct (found (detect x)) eqn:Hf.
        -- destruct (decide (x = filename)) as [->|Hne].
           ++ rewrite lookup_insert_eq. rewrite decide_True; [done|].
              split_and!; try done. by apply elem_of_cons; left.
           ++ rewrite lookup_insert_ne by done. rewrite decide_False; [done|].
              intros (Hel & ? & ?). apply elem_of_cons in Hel as [->|Hel]; [done|].
              by apply Hin.
        -- rewrite decide_False; [done|].
           intros (Hel & ? & ?). apply elem_of_cons in Hel as [->|Hel]; [congruence|].
           by apply Hin.
      * rewrite build_parameters_step_skip by done. rewrite decide_False; [done|].
        intros (Hel & ? & ?). apply elem_of_cons in Hel as [->|Hel]; [congruence|].
        by apply Hin.
Qed.

(** What a run of [build_parameters] on an existing directory does. *)
Lemma build_parameters_run_eq entries :
  fs !! box_dir = Some entries →
  build_parameters_run listdir_order calculate_parameters box_dir target_color fs
  = (inr (foldl step (BuildState ∅ []) (listdir_order entries)), fs).
Proof.
  intros H. unfold build_parameters_run, os_listdir, mbind, io_bind. by rewrite H.
Qed.

Lemma build_parameters_eq entries :
  fs !! box_dir = Some entries →
  build_parameters listdir_order calculate_parameters box_dir target_color fs
  = (inr (parameters (foldl step (BuildState ∅ []) (listdir_order entries))), fs).
Proof.
  intros H. unfold build_parameters, mbind, io_bind.
  by rewrite (build_parameters_run_eq entries).
Qed.

Lemma build_parameters_missing_dir :
  fs !! box_dir = None →
  build_parameters listdir_order calculate_parameters box_dir target_color fs
  = (inl (FileNotFoundError box_dir), fs).
Proof.
  intros H. unfold build_parameters, build_parameters_run, os_listdir, mbind, io_bind.
  by rewrite H.
Qed.

Lemma listdir_order_elem_of (entries : directory) name :
  name ∈ listdir_order entries ↔ is_Some (entries !! name).
Proof.
  rewrite listdir_order_spec. rewrite list_elem_of_fmap. split.
  - intros [[k v] [-> Hkv]]. apply elem_of_map_to_list in Hkv. by exists v.
  - intros [v Hv]. exists (name, v). split; [done|]. by apply elem_of_map_to_list.
Qed.

Lemma listdir_order_NoDup (entries : directory) : NoDup (listdir_order entries).
Proof. rewrite listdir_order_spec. apply NoDup_fst_map_to_list. Qed.



Lemma found_false_iff bbox height width rotation :
  found (bbox, height, width, rotation) = false ↔
  truthy bbox = false ∨ truthy height = false ∨ truthy width = false.
Proof. unfold found. rewrite !andb_false_iff. tauto. Qed.

(** What the mapping returned by [build_parameters] holds for a name. *)
Lemma build_parameters_lookup params fs' filename :
  build_parameters listdir_order calculate_parameters box_dir target_color fs
    = (inr params, fs') →
  ∃ entries, fs !! box_dir = Some entries ∧ fs' = fs ∧
    params !! filename =
      if decide (is_Some (entries !! filename) ∧ allowed_file filename = true
                 ∧ found (detect filename) = true)
      then Some (geometry_of (detect filename)) else None.
Proof.
  intros Hrun. destruct (fs !! box_dir) as [entries|] eqn:Hdir.
  - rewrite (build_parameters_eq entries) in Hrun by done.
    injection Hrun as <- <-. exists entries. split_and!; try done.
    rewrite build_loop_lookup. simpl. rewrite lookup_empty.
    destruct (decide (filename ∈ _ ∧ _)) as [H|H].
    + rewrite decide_True; [done|]. by rewrite <- listdir_order_elem_of.
    + rewrite decide_False; [done|]. by rewrite <- listdir_order_elem_of.
  - by rewrite build_parameters_missing_dir in Hrun.
Qed.



(** C4.  When the detector's answer for a file has a falsy [bbox], [height]
    or [width], [build_parameters] stores nothing for that file, does not
    raise, and goes on: every other image of the directory whose detection
    succeeds has its entry in the mapping returned. *)
Theorem build_parameters_skips_failed_detection entries :
  fs !! box_dir = Some entries →
  ∃ params,
    build_parameters listdir_order calculate_parameters box_dir target_color fs
      = (inr params, fs) ∧
    (∀ filename bbox height width rotation,
       detect filename = (bbox, height, width, rotation) →
       truthy bbox = false ∨ truthy height = false ∨ truthy width = false →
       params !! filename = None) ∧
    (∀ filename,
       is_Some (entries !! filename) → allowed_file filename = true →
       found (detect filename) = true →
       params !! filename = Some (geometry_of (detect filename))).
Proof.
  intros Hdir. eexists. split; [by apply build_parameters_eq|]. split.
  - intros filename b h w r Hd Hfalsy. rewrite build_loop_lookup.
    rewrite decide_False; [done|]. intros (_ & _ & Hf).
    rewrite Hd in Hf. apply (found_false_iff b h w r) in Hfalsy. congruence.
  - intros filename Hin Hallowed Hf. rewrite build_loop_lookup.
    rewrite decide_True; [done|]. by rewrite listdir_order_elem_of.
Qed.

(** C7.  A run of [build_parameters] calls the detector once for each file
    of the directory that has an allowed image extension, on that file's
    path and with the target color, and makes no other call. *)
Theorem build_parameters_calls_detector_once entries :
  fs !! box_dir = Some entries →
  ∃ st names,
    build_parameters_run listdir_order calculate_parameters box_dir target_color fs
      = (inr st, fs) ∧
    build_parameters listdir_order calculate_parameters box_dir target_color fs
      = (inr (parameters st), fs) ∧
    detector_calls st = map (λ filename, call filename) names ∧
    names = filter (λ filename, allowed_file filename = true) (listdir_order entries) ∧
    NoDup names ∧
    (∀ filename,
       filename ∈ names ↔ is_Some (entries !! filename) ∧ allowed_file filename = true).
Proof.
  intros Hdir. eexists _, _. split; [by apply build_parameters_run_eq|].
  split; [by apply build_parameters_eq|].
  split; [by rewrite build_loop_calls|]. split; [done|]. split.
  - apply NoDup_filter, listdir_order_NoDup.
  - intros filename. rewrite list_elem_of_filter, listdir_order_elem_of. tauto.
Qed.

End build_parameters_facts.

(** ** sorted *)

Section sorted_facts.
Variable key : string → string.

Local Abbreviation key_le := (λ a b : string, String.le (key a) (key b)).

Lemma ltb_le a b : String.ltb a b = true → String.le a b.
Proof.
  unfold String.ltb, String.le, String.leb. by destruct (String.compare a b).
Qed.

Lemma not_ltb_le a b : String.ltb a b = false → String.le b a.
Proof.
  unfold String.ltb, String.le, String.leb. rewrite (String.compare_antisym a b).
  by destruct (String.compare b a).
Qed.

Lemma insert_sorted_perm x l : insert_sorted key x l ≡ₚ x :: l.
Proof.
  induction l as [|y l IH]; simpl; [done|].
  destruct (String.ltb _ _); [|done]. rewrite IH. apply perm_swap.
Qed.

Lemma sorted_perm l : sorted key l ≡ₚ l.
Proof.
  induction l as [|x l IH]; simpl; [done|].
  unfold sorted in *. simpl. by rewrite insert_sorted_perm, IH.
Qed.

Lemma insert_sorted_sorted x l :
  StronglySorted key_le l → StronglySorted key_le (insert_sorted key x l).
Proof.
  induction 1 as [|y l Hl IH Hy]; simpl.
  - by repeat constructor.
  - destruct (String.ltb (key y) (key x)) eqn:Hlt.
    + constructor; [done|]. rewrite insert_sorted_perm.
      constructor; [by apply ltb_le|done].
    + apply not_ltb_le in Hlt. constructor; [by constructor|].
      constructor; [done|].
      eapply Forall_impl; [exact Hy|]. intros z Hz. simpl in *. by etrans.
Qed.

Lemma sorted_sorted l : StronglySorted key_le (sorted key l).
Proof.
  induction l as [|x l IH]; [constructor|].
  unfold sorted in *. simpl. by apply insert_sorted_sorted.
Qed.

Lemma sorted_nil l : sorted key l = [] ↔ l = [].
Proof.
  split; [|by intros ->].
  intros H. apply Permutation_nil. by rewrite <- H, sorted_perm.
Qed.

Lemma ltb_irrefl a : String.ltb a a = false.
Proof.
  unfold String.ltb. assert (String.compare a a = Eq) as ->; [|done].
  induction a as [|c a IH]; simpl; [done|].
  unfold Ascii.compare. by rewrite N.compare_refl.
Qed.

Lemma insert_sorted_filter_key k x l :
  filter (λ y, key y = k) (insert_sorted key x l) = filter (λ y, key y = k) (x :: l).
Proof.
  induction l as [|y l IH]; simpl; [done|].
  destruct (String.ltb (key y) (key x)) eqn:Hlt; [|done].
  assert (key y ≠ key x) as Hne.
  { intros Heq. rewrite Heq, ltb_irrefl in Hlt. done. }
  rewrite (filter_cons _ y), IH, !(filter_cons _ x), (filter_cons _ y).
  repeat case_decide; congruence.
Qed.

(** The sort is stable: names with the same key keep the order they had. *)
Lemma sorted_stable k l :
  filter (λ y, key y = k) (sorted key l) = filter (λ y, key y = k) l.
Proof.
  induction l as [|x l IH]; [done|].
  unfold sorted in *. simpl. rewrite insert_sorted_filter_key.
  by rewrite !(filter_cons _ x), IH.
Qed.

End sorted_facts.

(** ** allowed_file and save_files *)

Lemma elem_of_ALLOWED_EXTENSIONS ext :
  ext ∈ ALLOWED_EXTENSIONS ↔ ext = ".png" ∨ ext = ".jpg" ∨ ext = ".jpeg".
Proof.
  unfold ALLOWED_EXTENSIONS. rewrite !elem_of_union, !elem_of_singleton. tauto.
Qed.

Lemma allowed_file_spec filename :
  allowed_file filename = true ↔
  filename ≠ "" ∧ Text.lower (extension filename) ∈ ALLOWED_EXTENSIONS.
Proof.
  unfold allowed_file, extension. case_bool_decide as Hempty.
  - split; [done|]. by intros [? _].
  - rewrite bool_decide_eq_true. tauto.
Qed.

Section save_files_facts.
Variable secure_filename : string → string.

(** Sanitizing the empty name leaves it empty. *)
Hypothesis secure_filename_empty : secure_filename "" = "".

Variable target_dir : string.

Local Abbreviation name_of := (stored_name secure_filename).
Local Abbreviation kept := (accepted secure_filename).
Local Abbreviation write := (store secure_filename target_dir).

Lemma store_lookup_dir fs f :
  is_Some (write fs f !! target_dir).
Proof. unfold store. rewrite lookup_insert_eq. eauto. Qed.

Lemma save_files_step_accepted saved_any f fs :
  is_Some (fs !! target_dir) → kept f →
  save_files_step secure_filename target_dir saved_any f fs = (inr true, write fs f).
Proof.
  intros [entries Hdir] Hacc. unfold accepted, stored_name in Hacc.
  unfold save_files_step, store, stored_name.
  destruct (upload_filename f) as [name|]; simpl in *.
  - case_bool_decide as Hname.
    + subst name. rewrite secure_filename_empty in Hacc. done.
    + rewrite Hacc. simpl. unfold mbind, io_bind, save. by rewrite Hdir.
  - rewrite secure_filename_empty in Hacc. done.
Qed.

Lemma save_files_step_ignored saved_any f fs :
  ¬ kept f →
  save_files_step secure_filename target_dir saved_any f fs = (inr saved_any, fs).
Proof.
  intros Hacc. unfold accepted, stored_name in Hacc.
  unfold save_files_step.
  destruct (upload_filename f) as [name|]; simpl in *; [|done].
  case_bool_decide; [done|].
  by destruct (allowed_file (secure_filename name)).
Qed.

Lemma save_files_loop_spec files saved_any fs :
  is_Some (fs !! target_dir) →
  save_files_loop secure_filename files target_dir saved_any fs =
    (inr (saved_any || negb (bool_decide (filter kept files = []))),
     foldl write fs (filter kept files)).
Proof.
  revert saved_any fs. induction files as [|f files IH]; intros saved_any fs Hdir.
  - simpl. by rewrite orb_false_r.
  - cbn [save_files_loop]. unfold mbind, io_bind.
    destruct (decide (kept f)) as [Hacc|Hacc].
    + rewrite save_files_step_accepted by done.
      rewrite IH by apply store_lookup_dir.
      rewrite filter_cons_True by done. simpl. by rewrite orb_true_r.
    + rewrite save_files_step_ignored by done.
      rewrite IH by done. by rewrite filter_cons_False.
Qed.

Lemma foldl_store_other_dir files fs dir :
  dir ≠ target_dir → foldl write fs files !! dir = fs !! dir.
Proof.
  intros Hne. revert fs. induction files as [|f files IH]; intros fs; [done|].
  simpl. rewrite IH. unfold store. by rewrite lookup_insert_ne.
Qed.

Lemma foldl_store_lookup files fs entries :
  fs !! target_dir = Some entries →
  ∃ entries',
    foldl write fs files !! target_dir = Some entries' ∧
    (∀ f, f ∈ files → is_Some (entries' !! name_of f)) ∧
    (∀ name, (∀ f, f ∈ files → name_of f ≠ name) →
             entries' !! name = entries !! name).
Proof.
  revert fs entries. induction files as [|f files IH]; intros fs entries Hdir.
  - exists entries. split_and!; [done| |done]. by intros f ?%elem_of_nil.
  - simpl.
    destruct (IH (write fs f) (<[name_of f := upload_data f]> entries))
      as (entries' & Hdir' & Hin & Hout).
    { unfold store. by rewrite lookup_insert_eq, Hdir. }
    exists entries'. split_and!; [done| |].
    + intros f' [->|Hf']%elem_of_cons; [|by apply Hin].
      destruct (decide (Exists (λ f', name_of f' = name_of f) files))
        as [(f' & Hf' & <-)%Exists_exists|Hnone].
      * by apply Hin.
      * rewrite Hout, lookup_insert_eq; [eauto|].
        intros f' Hf' Heq. apply Hnone, Exists_exists. eauto.
    + intros name Hname. rewrite Hout.
      * rewrite lookup_insert_ne; [done|]. apply Hname. by left.
      * intros f' Hf'. apply Hname. by right.
Qed.

(** C6.  [allowed_file] accepts a name exactly when the name is not empty
    and its extension, put in lower case, is [.png], [.jpg] or [.jpeg].
    In a directory that exists, [save_files] writes the uploads whose
    sanitized name passes that test, each under its sanitized name, and
    nothing else; the other uploads are passed over and nothing is
    raised. *)
Theorem save_files_stores_allowed files fs entries :
  fs !! target_dir = Some entries →
  (∀ filename,
     allowed_file filename = true ↔
     filename ≠ "" ∧
     (Text.lower (extension filename) = ".png"
      ∨ Text.lower (extension filename) = ".jpg"
      ∨ Text.lower (extension filename) = ".jpeg")) ∧
  ∃ entries',
    save_files secure_filename files target_dir fs =
      (inr (negb (bool_decide (filter kept files = []))),
       foldl write fs (filter kept files)) ∧
    foldl write fs (filter kept files) !! target_dir = Some entries' ∧
    (∀ f, f ∈ files → kept f → is_Some (entries' !! name_of f)) ∧
    (∀ name, (∀ f, f ∈ files → kept f → name_of f ≠ name) →
             entries' !! name = entries !! name) ∧
    (∀ dir, dir ≠ target_dir →
            foldl write fs (filter kept files) !! dir = fs !! dir).
Proof.
  intros Hdir. split.
  { intros filename. rewrite allowed_file_spec, elem_of_ALLOWED_EXTENSIONS. done. }
  destruct (foldl_store_lookup (filter kept files) fs entries Hdir)
    as (entries' & Hdir' & Hin & Hout).
  exists entries'. split_and!.
  - unfold save_files. by rewrite save_files_loop_spec by eauto.
  - done.
  - intros f Hf Hacc. apply Hin. by apply list_elem_of_filter.
  - intros name Hname. apply Hout. intros f [??]%list_elem_of_filter. by apply Hname.
  - intros dir Hne. by apply foldl_store_other_dir.
Qed.

End save_files_facts.

(** ** index *)

Section index_facts.
Variable max_str_digits : N.
Variable RUNS_DIR : string.
Variable listdir_order : directory → list string.
Variable secure_filename : string → string.
Variable calculate_parameters : filesystem → string → color → detection.
Variable create_mockups :
  string → string → gmap string geometry → string → filesystem → filesystem.
Variable uuid4_hex : string.

Hypothesis listdir_order_spec :
  ∀ entries : directory, listdir_order entries ≡ₚ (map_to_list entries).*1.

Local Abbreviation handle :=
  (index max_str_digits RUNS_DIR listdir_order secure_filename
     calculate_parameters create_mockups uuid4_hex).
Local Abbreviation prepare :=
  (index_prepare max_str_digits RUNS_DIR listdir_order secure_filename
     calculate_parameters uuid4_hex).
Local Abbreviation finish := (index_finish listdir_order uuid4_hex).
Local Abbreviation images entries :=
  (filter (λ name, allowed_file name = true) (listdir_order entries)).

(** The directory of the outputs of the job at hand. *)
Local Abbreviation job_output_dir :=
  (OsPath.join (OsPath.join RUNS_DIR uuid4_hex) "output").

(** [index] is its preparation followed, when the job is ready, by the
    rendering and the listing of the outputs. *)
Lemma index_unfold request fs :
  handle request fs =
    match prepare request fs with
    | (inl e, fs1) => (inl e, fs1)
    | (inr (Replied page), fs1) => (inr page, fs1)
    | (inr (Ready design_dir mockup_dir parameters output_dir), fs1) =>
        finish output_dir
          (create_mockups design_dir mockup_dir parameters output_dir fs1)
    end.
Proof.
  unfold index, index_prepare.
  destruct (method request); [done|].
  destruct (parse_color _ _) as [exc|target_color]; [done|].
  destruct (_ || _ || _); [done|].
  unfold mbind, io_bind, mret, io_ret, os_makedirs.
  repeat match goal with
         | |- context [save_files ?sf ?files ?dir ?fs] =>
             destruct (save_files sf files dir fs) as [[?|[]] ?]; try done
         end;
  simpl;
  repeat match goal with
         | |- context [build_parameters ?l ?c ?d ?t ?fs] =>
             destruct (build_parameters l c d t fs) as [[?|?] ?]; try done
         end;
  by case_bool_decide.
Qed.

Lemma index_finish_eq output_dir fs :
  finish output_dir fs =
    match fs !! output_dir with
    | None => (inl (FileNotFoundError output_dir), fs)
    | Some entries =>
        (inr (if bool_decide (images entries = []) then error_page NO_OUTPUTS
              else Response None (Some (sorted Text.lower (images entries)))
                     (Some uuid4_hex) 200), fs)
    end.
Proof.
  unfold index_finish, os_listdir, mbind, io_bind.
  destruct (fs !! output_dir) as [entries|]; [|done].
  case_bool_decide as Hs.
  - apply sorted_nil in Hs. by rewrite bool_decide_true.
  - rewrite bool_decide_false; [done|]. by rewrite <- (sorted_nil Text.lower).
Qed.

(** The pages sent before the rendering list no outputs and do not carry
    the message about missing outputs; a ready job writes to the output
    directory of the job. *)
Lemma index_prepare_replied request fs page fs1 :
  prepare request fs = (inr (Replied page), fs1) →
  outputs page = None ∧ error page ≠ Some NO_OUTPUTS.
Proof.
  unfold index_prepare.
  destruct (method request); [by intros [= <- <-]|].
  destruct (parse_color _ _) as [exc|target_color]; [by intros [= <- <-]|].
  destruct (_ || _ || _); [by intros [= <- <-]|].
  unfold mbind, io_bind, mret, io_ret, os_makedirs.
  repeat match goal with
         | |- context [save_files ?sf ?files ?dir ?fs] =>
             destruct (save_files sf files dir fs) as [[?|[]] ?]; try done
         end;
  simpl; try (by intros [= <- <-]);
  repeat match goal with
         | |- context [build_parameters ?l ?c ?d ?t ?fs] =>
             destruct (build_parameters l c d t fs) as [[?|?] ?]; try done
         end;
  case_bool_decide; try done; by intros [= <- <-].
Qed.

Lemma index_prepare_ready request fs design_dir mockup_dir parameters output_dir fs1 :
  prepare request fs
    = (inr (Ready design_dir mockup_dir parameters output_dir), fs1) →
  method request = POST ∧ output_dir = job_output_dir ∧ parameters ≠ ∅.
Proof.
  unfold index_prepare.
  destruct (method request); [done|].
  destruct (parse_color _ _) as [exc|target_color]; [done|].
  destruct (_ || _ || _); [done|].
  unfold mbind, io_bind, mret, io_ret, os_makedirs.
  repeat match goal with
         | |- context [save_files ?sf ?files ?dir ?fs] =>
             destruct (save_files sf files dir fs) as [[?|[]] ?]; try done
         end;
  simpl; try done;
  repeat match goal with
         | |- context [build_parameters ?l ?c ?d ?t ?fs] =>
             destruct (build_parameters l c d t fs) as [[?|?] ?]; try done
         end;
  case_bool_decide; try done; by intros [= <- <- <- <- <-].
Qed.

(** C3.  When a POST request comes to run [create_mockups], the handler
    looks at the output directory the rendering leaves: if it holds no
    file with an allowed image extension the page carries the error about
    missing outputs, with status 400; otherwise the page is the success
    page and lists, sorted, exactly the files of the directory with an
    allowed extension.  The error about missing outputs is sent in no other
    case. *)
Theorem index_reports_missing_outputs request fs :
  (∀ design_dir mockup_dir parameters output_dir fs1 entries,
     prepare request fs
       = (inr (Ready design_dir mockup_dir parameters output_dir), fs1) →
     create_mockups design_dir mockup_dir parameters output_dir fs1 !! output_dir
       = Some entries →
     handle request fs =
       (inr (if bool_decide (images entries = []) then error_page NO_OUTPUTS
             else Response None (Some (sorted Text.lower (images entries)))
                    (Some uuid4_hex) 200),
        create_mockups design_dir mockup_dir parameters output_dir fs1) ∧
     sorted Text.lower (images entries) ≡ₚ images entries ∧
     (∀ name, name ∈ images entries ↔
              is_Some (entries !! name) ∧ allowed_file name = true)) ∧
  (∀ page fs',
     handle request fs = (inr page, fs') →
     error page = Some NO_OUTPUTS →
     ∃ design_dir mockup_dir parameters output_dir fs1 entries,
       prepare request fs
         = (inr (Ready design_dir mockup_dir parameters output_dir), fs1) ∧
       fs' = create_mockups design_dir mockup_dir parameters output_dir fs1 ∧
       fs' !! output_dir = Some entries ∧
       images entries = []).
Proof.
  split.
  - intros design_dir mockup_dir parameters output_dir fs1 entries Hprep Hdir.
    split_and!.
    + by rewrite index_unfold, Hprep, index_finish_eq, Hdir.
    + apply sorted_perm.
    + intros name. rewrite list_elem_of_filter.
      rewrite (listdir_order_elem_of listdir_order listdir_order_spec). tauto.
  - intros page fs' Hrun Herr. rewrite index_unfold in Hrun.
    destruct (prepare request fs) as [[e|[page'|dd md ps od]] fs1] eqn:Hprep.
    + done.
    + injection Hrun as <- <-.
      by destruct (index_prepare_replied _ _ _ _ Hprep) as [_ ?].
    + rewrite index_finish_eq in Hrun.
      destruct (create_mockups dd md ps od fs1 !! od) as [entries|] eqn:Hdir; [|done].
      injection Hrun as <- <-. exists dd, md, ps, od, fs1, entries.
      split_and!; try done. by case_bool_decide.
Qed.

(** C8.  When [parse_color] raises on the form of a POST request, the
    handler answers with status 400 and the text of the exception, and the
    file system is as it was: no directory has been made and no upload
    saved. *)
Theorem index_rejects_bad_color request fs exc :
  method request = POST →
  parse_color max_str_digits (form request) = inl exc →
  handle request fs = (inr (Response (Some (StrOf exc)) None None 400), fs).
Proof.
  intros Hmethod Hcolor. unfold index. by rewrite Hmethod, Hcolor.
Qed.

(** C10.  The outputs a page lists are exactly the names of the files in
    the output directory of the job that have an allowed image extension,
    each once, in the order of their names put in lower case. *)
Theorem index_outputs_sorted request fs page fs' names :
  handle request fs = (inr page, fs') →
  outputs page = Some names →
  ∃ entries,
    fs' !! job_output_dir = Some entries ∧
    (∀ name, name ∈ names ↔ is_Some (entries !! name) ∧ allowed_file name = true) ∧
    NoDup names ∧
    StronglySorted lower_le names ∧
    names = sorted Text.lower (images entries).
Proof.
  intros Hrun Hout. rewrite index_unfold in Hrun.
  destruct (prepare request fs) as [[e|[page'|dd md ps od]] fs1] eqn:Hprep.
  - done.
  - injection Hrun as <- <-.
    destruct (index_prepare_replied _ _ _ _ Hprep) as [? _]. congruence.
  - destruct (index_prepare_ready _ _ _ _ _ _ _ Hprep) as (_ & -> & _).
    rewrite index_finish_eq in Hrun.
    destruct (create_mockups _ _ _ _ _ !! _) as [entries|] eqn:Hdir; [|done].
    injection Hrun as <- <-. exists entries.
    case_bool_decide; [done|]. simpl in Hout. injection Hout as <-.
    split_and!; try done.
    + intros name. rewrite sorted_perm, list_elem_of_filter.
      rewrite (listdir_order_elem_of listdir_order listdir_order_spec). tauto.
    + rewrite sorted_perm.
      apply NoDup_filter, (listdir_order_NoDup listdir_order listdir_order_spec).
    + apply sorted_sorted.
Qed.

End index_facts.

(** * Further properties *)

(** ** parse_color: the hex color field *)

Section parse_color_hex_facts.
Import Text PyLong.
Variable max_str_digits : N.

Lemma read_hex_pair_inr c1 c2 v :
  read_hex_pair c1 c2 = inr v ↔ hex_pair_value c1 c2 = Some v.
Proof.
  unfold read_hex_pair. destruct (hex_pair_value c1 c2); split; congruence.
Qed.

(** A hex color of six characters is read pair by pair. *)
Lemma parse_color_hex_pairs form c1 c2 c3 c4 c5 c6 :
  hex_field form ≠ "" →
  chars (lstrip_hash (hex_field form)) = [c1; c2; c3; c4; c5; c6] →
  parse_color max_str_digits form =
    (r ← read_hex_pair c1 c2; g ← read_hex_pair c3 c4;
     b ← read_hex_pair c5 c6; mret (r, g, b)).
Proof.
  intros Hhex Hs. rewrite parse_color_hex by done. cbv zeta.
  assert (lstrip_hash (hex_field form) = text [c1; c2; c3; c4; c5; c6]) as ->
    by (by rewrite <- Hs, text_chars).
  rewrite bool_decide_false by (intros H; by apply H).
  change (slice 0 2 _) with (pair c1 c2).
  change (slice 2 4 _) with (pair c3 c4).
  change (slice 4 6 _) with (pair c5 c6).
  by rewrite !int_of_str_hex_pair.
Qed.

(** A color returned for a hex field comes from three pairs that each read
    as a number. *)
Lemma parse_color_hex_inr form c :
  hex_field form ≠ "" →
  parse_color max_str_digits form = inr c →
  ∃ c1 c2 c3 c4 c5 c6 r g b,
    chars (lstrip_hash (hex_field form)) = [c1; c2; c3; c4; c5; c6] ∧
    hex_pair_value c1 c2 = Some r ∧ hex_pair_value c3 c4 = Some g ∧
    hex_pair_value c5 c6 = Some b ∧ c = (r, g, b).
Proof.
  intros Hhex Hrun.
  destruct (decide (String.length (lstrip_hash (hex_field form)) = 6%nat)) as [Hlen|Hlen].
  - rewrite <- chars_length in Hlen.
    destruct (chars (lstrip_hash (hex_field form)))
      as [|c1 [|c2 [|c3 [|c4 [|c5 [|c6 [|]]]]]]] eqn:Hs; try done.
    rewrite (parse_color_hex_pairs _ _ _ _ _ _ _ Hhex Hs) in Hrun.
    exists c1, c2, c3, c4, c5, c6.
    destruct (read_hex_pair c1 c2) as [|r] eqn:Hr; [done|].
    destruct (read_hex_pair c3 c4) as [|g] eqn:Hg; [done|].
    destruct (read_hex_pair c5 c6) as [|b] eqn:Hb; [done|].
    exists r, g, b. apply read_hex_pair_inr in Hr, Hg, Hb.
    simpl in Hrun. by injection Hrun as <-.
  - rewrite parse_color_hex in Hrun by done. cbv zeta in Hrun.
    by rewrite bool_decide_true in Hrun.
Qed.

Lemma hex_pair_value_bounds c1 c2 v :
  hex_pair_value c1 c2 = Some v → -15 ≤ v ≤ 255.
Proof.
  pose (check := λ c1 c2 : ascii,
    match hex_pair_value c1 c2 with
    | Some v => (-15 <=? v) && (v <=? 255)
    | None => true
    end).
  assert (forall_ascii (λ c1, forall_ascii (λ c2, check c1 c2)) = true) as H
    by (vm_compute; reflexivity).
  apply forall_ascii_spec with (c := c1) in H.
  apply forall_ascii_spec with (c := c2) in H.
  unfold check in H. intros Hv. rewrite Hv in H.
  apply andb_true_iff in H as [?%Z.leb_le ?%Z.leb_le]. lia.
Qed.

Lemma hex_pair_value_digits c1 c2 :
  is_hex_digit c1 = true → is_hex_digit c2 = true →
  ∃ v, hex_pair_value c1 c2 = Some v ∧ 0 ≤ v ≤ 255.
Proof.
  intros H1 H2. unfold hex_pair_value. rewrite H1, H2. simpl.
  eexists. split; [done|]. unfold is_hex_digit in *. unfold hex_value.
  apply N.ltb_lt in H1, H2. lia.
Qed.

(** X1.  A color that [parse_color] returns for a hex color field has every
    component between -15 and 255, and between 0 and 255 when the field,
    stripped, is six hexadecimal digits. *)
Theorem parse_color_hex_bounds form r g b :
  hex_field form ≠ "" →
  parse_color max_str_digits form = inr (r, g, b) →
  (-15 ≤ r ≤ 255 ∧ -15 ≤ g ≤ 255 ∧ -15 ≤ b ≤ 255) ∧
  (six_hex_digits (lstrip_hash (hex_field form)) = true →
   in_byte_range r ∧ in_byte_range g ∧ in_byte_range b).
Proof.
  intros Hhex Hrun.
  destruct (parse_color_hex_inr _ _ Hhex Hrun)
    as (c1 & c2 & c3 & c4 & c5 & c6 & r' & g' & b' & Hs & Hr & Hg & Hb & [= -> -> ->]).
  split.
  - split_and!; eapply hex_pair_value_bounds; eassumption.
  - unfold six_hex_digits. rewrite Hs. intros [_ Hd]%andb_true_iff. simpl in Hd.
    repeat (apply andb_true_iff in Hd as [? Hd]).
    destruct (hex_pair_value_digits c1 c2) as (? & ? & ?); [done..|].
    destruct (hex_pair_value_digits c3 c4) as (? & ? & ?); [done..|].
    destruct (hex_pair_value_digits c5 c6) as (? & ? & ?); [done..|].
    unfold in_byte_range. by simplify_eq.
Qed.

(** X2.  Without a hex color, a form that lacks one of the fields [r], [g],
    [b] makes [parse_color] raise; when [r] is the field that lacks, what is
    raised is the error of [int(None)]. *)
Theorem parse_color_missing_field form :
  hex_field form = "" →
  form !! "r" = None ∨ form !! "g" = None ∨ form !! "b" = None →
  (∃ e, parse_color max_str_digits form = inl e) ∧
  (form !! "r" = None → parse_color max_str_digits form = inl IntOfNoneError).
Proof.
  intros Hhex Hmissing. rewrite parse_color_rgb by done. split.
  - destruct (int_of max_str_digits (form !! "r")) as [e|r] eqn:Hr; [by exists e|].
    destruct (int_of max_str_digits (form !! "g")) as [e|g] eqn:Hg; [by exists e|].
    destruct (int_of max_str_digits (form !! "b")) as [e|b] eqn:Hb; [by exists e|].
    destruct Hmissing as [H|[H|H]]; rewrite H in *; done.
  - by intros ->.
Qed.

(** *** Letter case *)

Lemma chars_lower s : chars (lower s) = map lower_char (chars s).
Proof. induction s as [|c s IH]; simpl; [done|]. by rewrite IH. Qed.

Lemma text_map_lower l : text (map lower_char l) = lower (text l).
Proof. induction l as [|c l IH]; simpl; [done|]. by rewrite IH. Qed.

Lemma lower_nil s : lower s = "" ↔ s = "".
Proof. destruct s; simpl; split; congruence. Qed.

Lemma lstrip_chars_map p f l :
  (∀ c, p (f c) = p c) →
  lstrip_chars p (map f l) = map f (lstrip_chars p l).
Proof.
  intros Hp. induction l as [|c l IH]; simpl; [done|].
  rewrite Hp. by destruct (p c).
Qed.

Lemma rstrip_chars_map p f l :
  (∀ c, p (f c) = p c) →
  rstrip_chars p (map f l) = map f (rstrip_chars p l).
Proof.
  intros Hp. unfold rstrip_chars.
  by rewrite <- map_rev, lstrip_chars_map, map_rev by done.
Qed.

Lemma lower_char_space c : is_unicode_space (lower_char c) = is_unicode_space c.
Proof.
  pose (check := λ c, Bool.eqb (is_unicode_space (lower_char c)) (is_unicode_space c)).
  assert (forall_ascii check = true) as H by (vm_compute; reflexivity).
  apply forall_ascii_spec with (c := c) in H. by apply Bool.eqb_prop in H.
Qed.

Lemma lower_char_hash c :
  bool_decide (lower_char c = "#"%char) = bool_decide (c = "#"%char).
Proof.
  pose (check := λ c, Bool.eqb (bool_decide (lower_char c = "#"%char))
                               (bool_decide (c = "#"%char))).
  assert (forall_ascii check = true) as H by (vm_compute; reflexivity).
  apply forall_ascii_spec with (c := c) in H. by apply Bool.eqb_prop in H.
Qed.

Lemma strip_lower s : strip (lower s) = lower (strip s).
Proof.
  unfold strip. rewrite chars_lower.
  rewrite lstrip_chars_map, rstrip_chars_map by apply lower_char_space.
  apply text_map_lower.
Qed.

Lemma lstrip_hash_lower s : lstrip_hash (lower s) = lower (lstrip_hash s).
Proof.
  unfold lstrip_hash. rewrite chars_lower.
  rewrite lstrip_chars_map by apply lower_char_hash.
  apply text_map_lower.
Qed.

Lemma hex_pair_value_lower c1 c2 :
  hex_pair_value (lower_char c1) (lower_char c2) = hex_pair_value c1 c2.
Proof.
  pose (check := λ c1 c2 : ascii,
    bool_decide (hex_pair_value (lower_char c1) (lower_char c2) = hex_pair_value c1 c2)).
  assert (forall_ascii (λ c1, forall_ascii (λ c2, check c1 c2)) = true) as H
    by (vm_compute; reflexivity).
  apply forall_ascii_spec with (c := c1) in H.
  apply forall_ascii_spec with (c := c2) in H.
  by apply bool_decide_eq_true in H.
Qed.

(** When a hex color field yields a color. *)
Lemma parse_color_hex_inr_iff form c :
  hex_field form ≠ "" →
  parse_color max_str_digits form = inr c ↔
  ∃ c1 c2 c3 c4 c5 c6 r g b,
    chars (lstrip_hash (hex_field form)) = [c1; c2; c3; c4; c5; c6] ∧
    hex_pair_value c1 c2 = Some r ∧ hex_pair_value c3 c4 = Some g ∧
    hex_pair_value c5 c6 = Some b ∧ c = (r, g, b).
Proof.
  intros Hhex. split; [by apply parse_color_hex_inr|].
  intros (c1 & c2 & c3 & c4 & c5 & c6 & r & g & b & Hs & Hr & Hg & Hb & ->).
  rewrite (parse_color_hex_pairs _ _ _ _ _ _ _ Hhex Hs).
  apply read_hex_pair_inr in Hr, Hg, Hb. by rewrite Hr, Hg, Hb.
Qed.

Lemma parse_color_hex_lower form form' h c :
  form !! "hex_color" = Some h →
  form' !! "hex_color" = Some (lower h) →
  hex_field form ≠ "" →
  parse_color max_str_digits form = inr c ↔ parse_color max_str_digits form' = inr c.
Proof.
  intros Hh Hh' Hhex.
  assert (hex_field form' = lower (hex_field form)) as Hfield.
  { unfold hex_field. rewrite Hh, Hh'. simpl. apply strip_lower. }
  assert (hex_field form' ≠ "") as Hhex' by (by rewrite Hfield, lower_nil).
  assert (chars (lstrip_hash (hex_field form'))
          = map lower_char (chars (lstrip_hash (hex_field form)))) as Hchars
    by (by rewrite Hfield, lstrip_hash_lower, chars_lower).
  rewrite !parse_color_hex_inr_iff by done. rewrite Hchars. split.
  - intros (c1 & c2 & c3 & c4 & c5 & c6 & r & g & b & Hs & Hr & Hg & Hb & ->).
    rewrite Hs. eexists _, _, _, _, _, _, r, g, b. split; [done|].
    by rewrite !hex_pair_value_lower.
  - intros (d1 & d2 & d3 & d4 & d5 & d6 & r & g & b & Hs & Hr & Hg & Hb & ->).
    destruct (chars (lstrip_hash (hex_field form)))
      as [|c1 [|c2 [|c3 [|c4 [|c5 [|c6 [|]]]]]]]; try done.
    injection Hs as <- <- <- <- <- <-.
    rewrite !hex_pair_value_lower in *.
    by eexists _, _, _, _, _, _, r, g, b.
Qed.

(** X3.  The hex color is read without regard to letter case: two forms
    whose hex color fields differ only in the case of their letters, the
    field not blank, yield the same color, or both none. *)
Theorem parse_color_hex_case_insensitive form1 form2 h1 h2 c :
  form1 !! "hex_color" = Some h1 →
  form2 !! "hex_color" = Some h2 →
  lower h1 = lower h2 →
  hex_field form1 ≠ "" →
  parse_color max_str_digits form1 = inr c ↔ parse_color max_str_digits form2 = inr c.
Proof.
  intros H1 H2 Hcase Hhex1.
  assert (hex_field form2 ≠ "") as Hhex2.
  { unfold hex_field in *. rewrite H1 in Hhex1. rewrite H2. simpl in *.
    rewrite <- lower_nil, <- strip_lower, <- Hcase, strip_lower, lower_nil. done. }
  pose (form' := ({[ "hex_color" := lower h1 ]} : gmap string string)).
  rewrite (parse_color_hex_lower form1 form' h1) by (done || apply lookup_singleton_eq).
  rewrite (parse_color_hex_lower form2 form' h2); [done|done| |done].
  rewrite <- Hcase. apply lookup_singleton_eq.
Qed.

(** *** Six hexadecimal digits *)

Lemma hex_digit_char_facts c :
  is_hex_digit c = true → is_unicode_space c = false ∧ c ≠ "#"%char.
Proof.
  pose (check := λ c : ascii,
    implb (is_hex_digit c)
      (negb (is_unicode_space c) && negb (bool_decide (c = "#"%char)))).
  assert (forall_ascii check = true) as H by (vm_compute; reflexivity).
  apply forall_ascii_spec with (c := c) in H. unfold check in H.
  intros Hc. rewrite Hc in H. simpl in H.
  apply andb_true_iff in H as [H1%negb_true_iff H2%negb_true_iff].
  by apply bool_decide_eq_false in H2.
Qed.

Lemma six_hex_digits_chars h :
  six_hex_digits h = true →
  ∃ c1 c2 c3 c4 c5 c6,
    chars h = [c1; c2; c3; c4; c5; c6] ∧
    is_hex_digit c1 = true ∧ is_hex_digit c2 = true ∧ is_hex_digit c3 = true ∧
    is_hex_digit c4 = true ∧ is_hex_digit c5 = true ∧ is_hex_digit c6 = true.
Proof.
  unfold six_hex_digits. intros [Hlen Hd]%andb_true_iff.
  apply bool_decide_eq_true in Hlen. rewrite <- chars_length in Hlen.
  destruct (chars h) as [|c1 [|c2 [|c3 [|c4 [|c5 [|c6 [|]]]]]]]; try done.
  simpl in Hd. repeat (apply andb_true_iff in Hd as [? Hd]).
  by exists c1, c2, c3, c4, c5, c6.
Qed.

(** A field of six hexadecimal digits, with or without a [#] before them,
    is read as the color they write. *)
Lemma parse_color_six_hex_digits form h :
  six_hex_digits h = true →
  form !! "hex_color" = Some (String "#" h) ∨ form !! "hex_color" = Some h →
  parse_color max_str_digits form = inr (decode_hex h).
Proof.
  intros Hsix Hform.
  destruct (six_hex_digits_chars h Hsix)
    as (c1 & c2 & c3 & c4 & c5 & c6 & Hh & H1 & H2 & H3 & H4 & H5 & H6).
  destruct (hex_digit_char_facts c1 H1) as [Hs1 Hh1].
  destruct (hex_digit_char_facts c6 H6) as [Hs6 _].
  assert (h = text [c1; c2; c3; c4; c5; c6]) as -> by (by rewrite <- Hh, text_chars).
  clear Hh Hsix.
  set (h := text [c1; c2; c3; c4; c5; c6]).
  assert (chars h = [c1; c2; c3; c4; c5; c6]) as Hh by done.
  assert (hex_field form = h ∨ hex_field form = String "#" h) as Hfield.
  { unfold hex_field, strip, rstrip_chars.
    destruct Hform as [-> | ->]; [right|left]; simpl.
    - by rewrite Hs6.
    - rewrite Hs1. simpl. by rewrite Hs6. }
  assert (hex_field form ≠ "") as Hne.
  { destruct Hfield as [-> | ->]; [|done]. intros ->. done. }
  assert (chars (lstrip_hash (hex_field form)) = [c1; c2; c3; c4; c5; c6]) as Hs.
  { unfold lstrip_hash. rewrite chars_text.
    destruct Hfield as [-> | ->]; simpl; by rewrite bool_decide_false. }
  rewrite (parse_color_hex_pairs _ _ _ _ _ _ _ Hne Hs).
  unfold decode_hex, read_hex_pair, hex_pair_value. rewrite Hh.
  by rewrite H1, H2, H3, H4, H5, H6.
Qed.

Lemma hex_digit_value n :
  0 ≤ n < 16 → is_hex_digit (hex_digit n) = true ∧ hex_value (hex_digit n) = n.
Proof.
  intros Hn.
  assert (n = 0 ∨ n = 1 ∨ n = 2 ∨ n = 3 ∨ n = 4 ∨ n = 5 ∨ n = 6 ∨ n = 7 ∨ n = 8
          ∨ n = 9 ∨ n = 10 ∨ n = 11 ∨ n = 12 ∨ n = 13 ∨ n = 14 ∨ n = 15) as H by lia.
  repeat (destruct H as [->|H]; [by split|]). subst. by split.
Qed.

Lemma hex_text_decode r g b :
  in_byte_range r → in_byte_range g → in_byte_range b →
  six_hex_digits (hex_text (r, g, b)) = true ∧
  decode_hex (hex_text (r, g, b)) = (r, g, b).
Proof.
  unfold in_byte_range. intros Hr Hg Hb.
  destruct (hex_digit_value (r / 16)) as [? Hr1]; [Z.div_mod_to_equations; lia|].
  destruct (hex_digit_value (r mod 16)) as [? Hr2]; [Z.div_mod_to_equations; lia|].
  destruct (hex_digit_value (g / 16)) as [? Hg1]; [Z.div_mod_to_equations; lia|].
  destruct (hex_digit_value (g mod 16)) as [? Hg2]; [Z.div_mod_to_equations; lia|].
  destruct (hex_digit_value (b / 16)) as [? Hb1]; [Z.div_mod_to_equations; lia|].
  destruct (hex_digit_value (b mod 16)) as [? Hb2]; [Z.div_mod_to_equations; lia|].
  unfold six_hex_digits, decode_hex, hex_text. rewrite chars_text. split.
  - simpl. repeat (apply andb_true_iff; split); done.
  - rewrite Hr1, Hr2, Hg1, Hg2, Hb1, Hb2. f_equal; [f_equal|]; Z.div_mod_to_equations; lia.
Qed.

(** X4.  Every color with components in 0..255 can be given through the hex
    color field: written as [#] and six hexadecimal digits, or as the six
    digits alone, it is the color [parse_color] returns. *)
Theorem parse_color_reads_hex_text form r g b :
  in_byte_range r → in_byte_range g → in_byte_range b →
  form !! "hex_color" = Some (String "#" (hex_text (r, g, b)))
  ∨ form !! "hex_color" = Some (hex_text (r, g, b)) →
  parse_color max_str_digits form = inr (r, g, b).
Proof.
  intros Hr Hg Hb Hform.
  destruct (hex_text_decode r g b Hr Hg Hb) as [Hsix Hdecode].
  rewrite (parse_color_six_hex_digits form _ Hsix Hform). by rewrite Hdecode.
Qed.

End parse_color_hex_facts.

(** ** allowed_file: names and extensions *)

Section allowed_file_facts.
Import Text OsPath.

Lemma chars_app s1 s2 : chars (s1 +:+ s2) = chars s1 ++ chars s2.
Proof. induction s1 as [|c s1 IH]; simpl; [done|]. by rewrite <- IH. Qed.

Lemma chars_lower_fmap s : chars (lower s) = lower_char <$> chars s.
Proof. induction s as [|c s IH]; simpl; [done|]. by rewrite IH. Qed.

Lemma text_fmap_lower l : text (lower_char <$> l) = lower (text l).
Proof.
  induction l as [|c l IH]; [done|]. rewrite fmap_cons. simpl. by rewrite IH.
Qed.

Lemma lower_char_idemp c : lower_char (lower_char c) = lower_char c.
Proof.
  pose (check := λ c, bool_decide (lower_char (lower_char c) = lower_char c)).
  assert (forall_ascii check = true) as H by (vm_compute; reflexivity).
  apply forall_ascii_spec with (c := c) in H. by apply bool_decide_eq_true in H.
Qed.

Lemma lower_idemp s : lower (lower s) = lower s.
Proof. induction s as [|c s IH]; simpl; [done|]. by rewrite lower_char_idemp, IH. Qed.

(** Putting a character in lower case neither makes nor unmakes a dot or a
    separator. *)
Lemma lower_char_extsep c : lower_char c = extsep ↔ c = extsep.
Proof.
  pose (check := λ c, Bool.eqb (bool_decide (lower_char c = extsep))
                               (bool_decide (c = extsep))).
  assert (forall_ascii check = true) as H by (vm_compute; reflexivity).
  apply forall_ascii_spec with (c := c) in H. apply Bool.eqb_prop in H.
  by rewrite <- (bool_decide_eq_true (lower_char c = extsep)), H, bool_decide_eq_true.
Qed.

Lemma lower_char_sep c : lower_char c = sep ↔ c = sep.
Proof.
  pose (check := λ c, Bool.eqb (bool_decide (lower_char c = sep))
                               (bool_decide (c = sep))).
  assert (forall_ascii check = true) as H by (vm_compute; reflexivity).
  apply forall_ascii_spec with (c := c) in H. apply Bool.eqb_prop in H.
  by rewrite <- (bool_decide_eq_true (lower_char c = sep)), H, bool_decide_eq_true.
Qed.

Lemma rfind_from_lower c l i last :
  (∀ x, lower_char x = c ↔ x = c) →
  rfind_from c (lower_char <$> l) i last = rfind_from c l i last.
Proof.
  intros Hc. revert i last. induction l as [|x l IH]; intros i last; simpl; [done|].
  rewrite IH. by rewrite (bool_decide_ext _ _ (Hc x)).
Qed.

Lemma skip_leading_dots_lower l i n :
  skip_leading_dots (lower_char <$> l) i n = skip_leading_dots l i n.
Proof.
  revert i. induction n as [|n IH]; intros i; simpl; [done|].
  rewrite list_lookup_fmap. destruct (l !! i) as [c|]; simpl; [|done].
  rewrite IH.
  assert (bool_decide (lower_char c ≠ extsep) = bool_decide (c ≠ extsep)) as ->; [|done].
  apply bool_decide_ext. by rewrite lower_char_extsep.
Qed.

Lemma splitext_lower p :
  splitext (lower p) = (lower (splitext p).1, lower (splitext p).2).
Proof.
  unfold splitext, rfind. rewrite !chars_lower_fmap.
  rewrite !rfind_from_lower by (apply lower_char_sep || apply lower_char_extsep).
  case_bool_decide; [|done].
  rewrite skip_leading_dots_lower.
  destruct (skip_leading_dots _ _ _); [|done]. simpl.
  by rewrite <- fmap_take, <- fmap_drop, !text_fmap_lower.
Qed.

(** X5.  [allowed_file] does not look at letter case: a name passes exactly
    when the name put in lower case passes. *)
Theorem allowed_file_case_insensitive filename :
  allowed_file (lower filename) = allowed_file filename.
Proof.
  unfold allowed_file. rewrite splitext_lower. simpl. rewrite lower_idemp.
  by rewrite (bool_decide_ext _ _ (lower_nil filename)).
Qed.

(** *** What an allowed name looks like *)

Lemma skip_leading_dots_true l i n : skip_leading_dots l i n = true → (0 < n)%nat.
Proof. destruct n; simpl; [done|lia]. Qed.

Lemma text_nil l : text l = "" ↔ l = [].
Proof. destruct l; simpl; split; congruence. Qed.

Lemma splitext_root_nonempty p :
  (splitext p).2 ≠ "" → (splitext p).1 ≠ "".
Proof.
  unfold splitext. case_bool_decide; [|done].
  destruct (skip_leading_dots _ _ _) eqn:Hskip; [|done]. simpl.
  intros _ Hroot. apply skip_leading_dots_true in Hskip.
  apply text_nil in Hroot. unfold rfind in *.
  destruct (chars p) as [|c l]; [simpl in Hskip; lia|].
  destruct (Z.to_nat (rfind_from extsep (c :: l) 0 (-1))) as [|n]; [lia|done].
Qed.

(** X6.  A name [allowed_file] accepts is a stem that is not empty followed
    by [.png], [.jpg] or [.jpeg] in some letter case. *)
Theorem allowed_file_stem_and_extension filename :
  allowed_file filename = true →
  ∃ stem ext,
    filename = stem +:+ ext ∧ stem ≠ "" ∧
    (lower ext = ".png" ∨ lower ext = ".jpg" ∨ lower ext = ".jpeg").
Proof.
  intros [Hne Hext]%allowed_file_spec. unfold extension in Hext.
  exists (splitext filename).1, (splitext filename).2. split_and!.
  - by rewrite splitext_concat.
  - apply splitext_root_nonempty. intros Heq. rewrite Heq in Hext.
    apply elem_of_ALLOWED_EXTENSIONS in Hext. simpl in Hext.
    by destruct Hext as [?|[?|?]].
  - by apply elem_of_ALLOWED_EXTENSIONS.
Qed.

Lemma rfind_from_not_in c l i last : c ∉ l → rfind_from c l i last = last.
Proof.
  revert i last. induction l as [|x l IH]; intros i last Hc; simpl; [done|].
  apply not_elem_of_cons in Hc as [Hx Hl].
  rewrite IH by done. by rewrite bool_decide_false.
Qed.

Lemma rfind_from_app c l1 l2 i last :
  rfind_from c (l1 ++ l2) i last =
    rfind_from c l2 (i + Z.of_nat (length l1)) (rfind_from c l1 i last).
Proof.
  revert i last. induction l1 as [|x l1 IH]; intros i last; simpl.
  - by rewrite Z.add_0_r.
  - rewrite IH. f_equal. lia.
Qed.

(** An extension of the allow-list is a dot followed by letters. *)
Lemma allowed_extension_shape ext :
  lower ext ∈ ALLOWED_EXTENSIONS →
  ∃ rest, chars ext = (extsep :: rest) ∧ (extsep ∉ rest) ∧ (sep ∉ rest).
Proof.
  intros Hext.
  assert (∃ rest', chars (lower ext) = (extsep :: rest')
                   ∧ (extsep ∉ rest') ∧ (sep ∉ rest')) as (rest' & Hchars & Hdot & Hsep).
  { apply elem_of_ALLOWED_EXTENSIONS in Hext as [->|[->| ->]];
      eexists; (split; [reflexivity|]); split;
      (intros H; unfold extsep, sep in H;
       repeat (apply elem_of_cons in H as [H|H]; [discriminate H|]);
       by apply elem_of_nil in H). }
  rewrite chars_lower_fmap in Hchars.
  destruct (chars ext) as [|c rest]; [done|]. simpl in Hchars.
  injection Hchars as Hc <-. apply lower_char_extsep in Hc as ->.
  exists rest. split_and!; [done| |].
  - intros Hin. apply Hdot. apply list_elem_of_fmap. exists extsep.
    split; [|done]. symmetry. by apply lower_char_extsep.
  - intros Hin. apply Hsep. apply list_elem_of_fmap. exists sep.
    split; [|done]. symmetry. by apply lower_char_sep.
Qed.

(** X7.  A stem that is not empty, holds no separator and does not start
    with a dot, followed by [.png], [.jpg] or [.jpeg] in any letter case, is
    a name [allowed_file] accepts. *)
Theorem allowed_file_accepts_image_names stem ext :
  stem ≠ "" →
  sep ∉ chars stem →
  (∀ c l, chars stem = c :: l → c ≠ extsep) →
  lower ext ∈ ALLOWED_EXTENSIONS →
  allowed_file (stem +:+ ext) = true.
Proof.
  intros Hne Hsep Hfirst Hext.
  destruct (allowed_extension_shape ext Hext) as (rest & Hchars & Hdot & Hsep').
  destruct (chars stem) as [|c l] eqn:Hstem; [by apply chars_nil in Hstem|].
  specialize (Hfirst c l eq_refl).
  assert (chars (stem +:+ ext) = (c :: l) ++ extsep :: rest) as Hall
    by (by rewrite chars_app, Hstem, Hchars).
  assert (rfind sep (stem +:+ ext) = -1) as Hrsep.
  { unfold rfind. rewrite Hall. apply rfind_from_not_in.
    intros [?|[?|?]%elem_of_cons]%elem_of_app; done. }
  assert (rfind extsep (stem +:+ ext) = Z.of_nat (length (c :: l))) as Hrdot.
  { unfold rfind. rewrite Hall, rfind_from_app. cbn [rfind_from].
    rewrite bool_decide_true by done. by rewrite rfind_from_not_in. }
  assert (splitext (stem +:+ ext) = (stem, ext)) as Hsplit.
  { unfold splitext. rewrite Hrsep, Hrdot, Hall.
    rewrite bool_decide_true by (simpl; lia).
    rewrite Nat2Z.id. simpl. rewrite bool_decide_true by done.
    rewrite take_app_length, drop_app_length.
    change (String c (text l)) with (text (c :: l)).
    by rewrite <- Hstem, <- Hchars, !text_chars. }
  apply allowed_file_spec. unfold extension. rewrite Hsplit. split; [|done].
  intros Heq. apply (f_equal chars) in Heq. by rewrite Hall in Heq.
Qed.

(** X8.  A name without a dot is not accepted, and neither is a name whose
    only dot is its first character, such as [.png]. *)
Theorem allowed_file_rejects_no_extension filename :
  extsep ∉ chars filename ∨
  (∃ rest, chars filename = (extsep :: rest) ∧ (extsep ∉ rest) ∧ (sep ∉ rest)) →
  allowed_file filename = false.
Proof.
  intros Hshape.
  assert (splitext filename = (filename, "")) as Hsplit.
  { unfold splitext, rfind. destruct Hshape as [Hdot|(rest & -> & Hdot & Hsep)].
    - rewrite (rfind_from_not_in extsep) by done.
      rewrite bool_decide_false; [done|].
      assert (∀ l i last, 0 ≤ i → -1 ≤ last → -1 ≤ rfind_from sep l i last) as Hge.
      { induction l as [|x l IH]; intros i last Hi Hlast; simpl; [done|].
        apply IH; [lia|]. case_bool_decide; lia. }
      specialize (Hge (chars filename) 0 (-1)). lia.
    - cbn [rfind_from].
      rewrite (bool_decide_true (extsep = extsep)) by done.
      rewrite (bool_decide_false (extsep = sep)) by done.
      by rewrite !rfind_from_not_in by done. }
  unfold allowed_file. rewrite Hsplit. by case_bool_decide.
Qed.

End allowed_file_facts.

(** ** build_parameters: the mapping as a whole *)

Section build_parameters_mapping_facts.
Variable calculate_parameters : filesystem → string → color → detection.
Variable fs : filesystem.
Variable box_dir : string.
Variable target_color : color.

Local Abbreviation detect filename :=
  (calculate_parameters fs (OsPath.join box_dir filename) target_color).

(** X9.  The mapping [build_parameters] returns does not depend on the
    order in which the directory is enumerated. *)
Theorem build_parameters_order_independent
    (listdir_order1 listdir_order2 : directory → list string) :
  (∀ entries : directory, listdir_order1 entries ≡ₚ (map_to_list entries).*1) →
  (∀ entries : directory, listdir_order2 entries ≡ₚ (map_to_list entries).*1) →
  build_parameters listdir_order1 calculate_parameters box_dir target_color fs
  = build_parameters listdir_order2 calculate_parameters box_dir target_color fs.
Proof.
  intros Hspec1 Hspec2. destruct (fs !! box_dir) as [entries|] eqn:Hdir.
  - rewrite !(build_parameters_eq _ _ _ _ _ entries) by done.
    do 2 f_equal. apply map_eq. intros filename.
    rewrite !build_loop_lookup.
    destruct (decide (filename ∈ listdir_order1 entries ∧ _)) as [H1|H1];
      destruct (decide (filename ∈ listdir_order2 entries ∧ _)) as [H2|H2];
      try done; exfalso.
    + apply H2. by rewrite listdir_order_elem_of, <- (listdir_order_elem_of listdir_order1).
    + apply H1. by rewrite listdir_order_elem_of, <- (listdir_order_elem_of listdir_order2).
  - by rewrite !build_parameters_missing_dir.
Qed.

(** X10.  When [build_parameters] returns, it has left the file system as
    it was; the keys of the mapping are exactly the names of the files of
    the directory that have an allowed extension and a successful
    detection; and the mapping is empty exactly when no such file has a
    successful detection. *)
Theorem build_parameters_keys (listdir_order : directory → list string) params fs' :
  (∀ entries : directory, listdir_order entries ≡ₚ (map_to_list entries).*1) →
  build_parameters listdir_order calculate_parameters box_dir target_color fs
    = (inr params, fs') →
  fs' = fs ∧
  ∃ entries,
    fs !! box_dir = Some entries ∧
    (∀ filename,
       is_Some (params !! filename) ↔
       is_Some (entries !! filename) ∧ allowed_file filename = true
       ∧ found (detect filename) = true) ∧
    (params = ∅ ↔
     ∀ filename, is_Some (entries !! filename) → allowed_file filename = true →
                 found (detect filename) = false).
Proof.
  intros Hspec Hrun.
  destruct (build_parameters_lookup _ _ Hspec _ _ _ _ _ "" Hrun)
    as (entries & Hdir & -> & _).
  split; [done|]. exists entries. split; [done|].
  assert (∀ filename,
            is_Some (params !! filename) ↔
            is_Some (entries !! filename) ∧ allowed_file filename = true
            ∧ found (detect filename) = true) as Hkeys.
  { intros filename.
    destruct (build_parameters_lookup _ _ Hspec _ _ _ _ _ filename Hrun)
      as (entries' & Hdir' & _ & ->).
    assert (entries' = entries) as -> by congruence.
    destruct (decide _) as [H|H]; split.
    - done.
    - by eexists.
    - by intros [? ?].
    - done. }
  split; [done|]. split.
  - intros -> filename Hin Hallowed.
    destruct (found (detect filename)) eqn:Hfound; [|done].
    assert (is_Some ((∅ : gmap string geometry) !! filename)) as [g Hg]
      by (by apply Hkeys).
    by rewrite lookup_empty in Hg.
  - intros Hnone. apply map_empty. intros filename.
    apply eq_None_not_Some. intros (Hin & Hallowed & Hfound)%Hkeys.
    by rewrite (Hnone filename Hin Hallowed) in Hfound.
Qed.

End build_parameters_mapping_facts.

(** ** save_files: what the directory holds afterwards *)

Section save_files_content_facts.
Variable secure_filename : string → string.
Hypothesis secure_filename_empty : secure_filename "" = "".
Variable target_dir : string.

Local Abbreviation name_of := (stored_name secure_filename).
Local Abbreviation kept := (accepted secure_filename).
Local Abbreviation write := (store secure_filename target_dir).
Local Abbreviation put_in := (put secure_filename).
Local Abbreviation last_of := (last_data secure_filename).

(** Writing uploads one after the other changes one directory. *)
Lemma foldl_store_put files fs entries :
  fs !! target_dir = Some entries →
  foldl write fs files = <[target_dir := foldl put_in entries files]> fs.
Proof.
  revert fs entries. induction files as [|f files IH]; intros fs entries Hdir.
  - simpl. by rewrite insert_id.
  - simpl. rewrite (IH _ (put_in entries f)).
    + unfold store. by rewrite insert_insert_eq.
    + unfold store, put. by rewrite lookup_insert_eq, Hdir.
Qed.

Lemma foldl_put_lookup files entries name :
  foldl put_in entries files !! name =
    match last_of name files with
    | Some d => Some d
    | None => entries !! name
    end.
Proof.
  revert entries. induction files as [|f files IH]; intros entries; [done|].
  simpl. rewrite IH. destruct (last_of name files); [done|].
  unfold put. case_bool_decide as Hname.
  - by rewrite Hname, lookup_insert_eq.
  - by rewrite lookup_insert_ne.
Qed.

Lemma last_data_app name files1 files2 :
  last_of name (files1 ++ files2) =
    match last_of name files2 with
    | Some d => Some d
    | None => last_of name files1
    end.
Proof.
  induction files1 as [|f files1 IH]; simpl.
  - by destruct (last_of name files2).
  - rewrite IH. by destruct (last_of name files2).
Qed.

Lemma last_data_none name files :
  (∀ f, f ∈ files → name_of f ≠ name) → last_of name files = None.
Proof.
  induction files as [|f files IH]; intros Hname; [done|].
  simpl. rewrite IH by (intros g Hg; apply Hname; by right).
  rewrite bool_decide_false; [done|]. apply Hname. by left.
Qed.

Lemma last_data_some name files d :
  last_of name files = Some d →
  ∃ f, f ∈ files ∧ name_of f = name ∧ upload_data f = d.
Proof.
  induction files as [|f files IH]; [done|]. simpl.
  destruct (last_of name files) as [d'|].
  - intros [= <-]. destruct (IH eq_refl) as (g & ? & ? & ?).
    exists g. split_and!; try done. by right.
  - case_bool_decide; [|done]. intros [= <-]. exists f. split_and!; try done. by left.
Qed.

(** A run of [save_files] on a directory that exists. *)
Lemma save_files_put files fs entries :
  fs !! target_dir = Some entries →
  save_files secure_filename files target_dir fs =
    (inr (negb (bool_decide (filter kept files = []))),
     <[target_dir := foldl put_in entries (filter kept files)]> fs).
Proof.
  intros Hdir. unfold save_files.
  rewrite save_files_loop_spec by eauto.
  by rewrite (foldl_store_put _ _ entries).
Qed.

(** X11.  Of several uploads that [save_files] stores under one name, the
    last one is the one the directory holds afterwards. *)
Theorem save_files_last_upload_wins files1 f files2 fs entries :
  fs !! target_dir = Some entries →
  kept f →
  (∀ g, g ∈ files2 → kept g → name_of g ≠ name_of f) →
  ∃ entries',
    (save_files secure_filename (files1 ++ f :: files2) target_dir fs).2
      !! target_dir = Some entries' ∧
    entries' !! name_of f = Some (upload_data f).
Proof.
  intros Hdir Hf Hlater. rewrite (save_files_put _ _ entries) by done. simpl.
  rewrite lookup_insert_eq. eexists. split; [done|].
  rewrite foldl_put_lookup, filter_app, filter_cons_True by done.
  rewrite last_data_app. simpl.
  rewrite last_data_none.
  - by rewrite bool_decide_true.
  - intros g [??]%list_elem_of_filter. by apply Hlater.
Qed.

(** X12.  Saving the same uploads a second time changes nothing: the file
    system and the answer are those of the first run. *)
Theorem save_files_twice files fs entries :
  fs !! target_dir = Some entries →
  save_files secure_filename files target_dir
    (save_files secure_filename files target_dir fs).2
  = save_files secure_filename files target_dir fs.
Proof.
  intros Hdir. rewrite (save_files_put files fs entries) by done. simpl.
  rewrite (save_files_put files _ (foldl put_in entries (filter kept files)))
    by apply lookup_insert_eq.
  f_equal. rewrite insert_insert_eq. f_equal.
  apply map_eq. intros name. rewrite !foldl_put_lookup.
  by destruct (last_of name (filter kept files)).
Qed.

(** X13.  [save_files] keeps a directory of images a directory of images:
    if every name in the directory passes [allowed_file] before, every name
    in it does afterwards. *)
Theorem save_files_keeps_allowed_names files fs entries :
  fs !! target_dir = Some entries →
  (∀ name, is_Some (entries !! name) → allowed_file name = true) →
  ∃ entries',
    (save_files secure_filename files target_dir fs).2 !! target_dir
      = Some entries' ∧
    (∀ name, is_Some (entries' !! name) → allowed_file name = true).
Proof.
  intros Hdir Hallowed. rewrite (save_files_put _ _ entries) by done. simpl.
  rewrite lookup_insert_eq. eexists. split; [done|].
  intros name. rewrite foldl_put_lookup.
  destruct (last_of name (filter kept files)) as [d|] eqn:Hlast; [|by apply Hallowed].
  intros _. apply last_data_some in Hlast as (f & [Hf _]%list_elem_of_filter & <- & _).
  exact Hf.
Qed.

End save_files_content_facts.

(** ** os.makedirs *)

Section makedirs_facts.
Import Text OsPath.

Lemma lstrip_chars_suffix p l : lstrip_chars p l `suffix_of` l.
Proof.
  induction l as [|c l IH]; simpl; [done|].
  destruct (p c); [by apply suffix_cons_r|reflexivity].
Qed.

Lemma rstrip_chars_prefix p l : rstrip_chars p l `prefix_of` l.
Proof.
  unfold rstrip_chars. destruct (lstrip_chars_suffix p (rev l)) as [k Hk].
  exists (rev k). rewrite <- rev_app_distr, <- Hk. by rewrite rev_involutive.
Qed.

Lemma leads_to_refl path : leads_to path path.
Proof. by unfold leads_to. Qed.

Lemma leads_to_trans dir path path' :
  leads_to dir path → leads_to path path' → leads_to dir path'.
Proof. unfold leads_to. by etrans. Qed.

(** The head [os.path.split] cuts off is a path that leads to the whole,
    and head and tail together are no longer than the whole. *)
Lemma split_head_leads_to p : leads_to (split p).1 p.
Proof.
  unfold leads_to, split. cbn [fst]. rewrite chars_text.
  destruct (_ && _).
  - etrans; [apply rstrip_chars_prefix|apply prefix_take].
  - apply prefix_take.
Qed.

Lemma split_length p :
  (String.length (split p).1 + String.length (split p).2 ≤ String.length p)%nat.
Proof.
  rewrite <- !chars_length. unfold split. cbn [fst snd]. rewrite !chars_text.
  set (i := Z.to_nat _).
  assert (length (take i (chars p)) + length (drop i (chars p)) = length (chars p))%nat
    as Hcut by (by rewrite <- length_app, take_drop).
  destruct (_ && _); [|lia].
  pose proof (prefix_length _ _
    (rstrip_chars_prefix (λ c, bool_decide (c = sep)) (take i (chars p)))).
  lia.
Qed.

Lemma makedirs_split_leads_to name : leads_to (makedirs_split name).1 name.
Proof.
  unfold makedirs_split.
  pose proof (split_head_leads_to name) as Hname.
  destruct (split name) as [head tail]. simpl in Hname.
  case_bool_decide; [|done].
  eapply leads_to_trans; [apply split_head_leads_to|done].
Qed.

Lemma makedirs_split_shorter name :
  (makedirs_split name).2 ≠ "" →
  (String.length (makedirs_split name).1 < String.length name)%nat.
Proof.
  unfold makedirs_split.
  pose proof (split_length name) as Hname.
  destruct (split name) as [head tail]. simpl in Hname.
  case_bool_decide as Htail.
  - pose proof (split_length head) as Hhead.
    destruct (split head) as [head' tail']. simpl in *.
    intros Hne. destruct tail'; [done|]. simpl in *. lia.
  - simpl. intros _. destruct tail; [done|]. simpl in *. lia.
Qed.

Lemma mkdir_exist_ok_lookup name fs d :
  mkdir_exist_ok name fs !! d = fs !! d ∨
  (fs !! d = None ∧ mkdir_exist_ok name fs !! d = Some ∅ ∧ d = name).
Proof.
  unfold mkdir_exist_ok. destruct (decide (d = name)) as [->|Hne].
  - rewrite lookup_insert_eq. destruct (fs !! name) as [e|] eqn:He; [by left|by right].
  - left. by rewrite lookup_insert_ne.
Qed.

(** What [os.makedirs] changes: a directory it makes was missing, is empty,
    and leads to the path asked for. *)
Lemma makedirs_within_lookup depth name fs d :
  makedirs_within depth name fs !! d = fs !! d ∨
  (fs !! d = None ∧ makedirs_within depth name fs !! d = Some ∅ ∧ leads_to d name).
Proof.
  revert name fs. induction depth as [|depth IH]; intros name fs; cbn [makedirs_within].
  - pose proof (makedirs_split_leads_to name) as Hlead.
    destruct (makedirs_split name) as [head tail].
    destruct (_ && _ && _); [by left|].
    destruct (mkdir_exist_ok_lookup name fs d) as [?|(? & ? & ->)]; [by left|].
    right. split_and!; try done. apply leads_to_refl.
  - pose proof (makedirs_split_leads_to name) as Hlead.
    destruct (makedirs_split name) as [head tail]. simpl in Hlead.
    destruct (_ && _ && _).
    + assert (makedirs_within depth head fs !! d = fs !! d ∨
              (fs !! d = None ∧ makedirs_within depth head fs !! d = Some ∅
               ∧ leads_to d name)) as Habove.
      { destruct (IH head fs) as [?|(? & ? & ?)]; [by left|right].
        split_and!; try done. by eapply leads_to_trans. }
      case_bool_decide; [done|].
      destruct (mkdir_exist_ok_lookup name (makedirs_within depth head fs) d)
        as [Hsame|(Hnone & Hmade & ->)].
      * by rewrite Hsame.
      * destruct Habove as [Hfs|(_ & Hsome & _)]; [|congruence].
        right. split_and!; [congruence|done|apply leads_to_refl].
    + destruct (mkdir_exist_ok_lookup name fs d) as [?|(? & ? & ->)]; [by left|].
      right. split_and!; try done. apply leads_to_refl.
Qed.

(** The count of calls does not matter once it reaches the length of the
    path: [os.makedirs] comes to its end. *)
Lemma makedirs_within_enough depth name fs :
  (String.length name ≤ depth)%nat →
  makedirs_within depth name fs = makedirs name fs.
Proof.
  unfold makedirs.
  assert (∀ depth1 depth2 name fs,
            (String.length name ≤ depth1)%nat → (String.length name ≤ depth2)%nat →
            makedirs_within depth1 name fs = makedirs_within depth2 name fs) as Hany.
  { clear. induction depth1 as [|depth1 IH]; intros depth2 name fs H1 H2.
    - destruct depth2 as [|depth2]; [done|]. cbn [makedirs_within].
      pose proof (makedirs_split_shorter name) as Hshort.
      destruct (makedirs_split name) as [head tail]. simpl in Hshort.
      destruct (bool_decide (head ≠ "")) eqn:Hhead; [|done].
      destruct (bool_decide (tail ≠ "")) eqn:Htail; [|done].
      apply bool_decide_eq_true in Htail. specialize (Hshort Htail). lia.
    - destruct depth2 as [|depth2]; cbn [makedirs_within].
      + pose proof (makedirs_split_shorter name) as Hshort.
        destruct (makedirs_split name) as [head tail]. simpl in Hshort.
        destruct (bool_decide (head ≠ "")) eqn:Hhead; [|done].
        destruct (bool_decide (tail ≠ "")) eqn:Htail; [|done].
        apply bool_decide_eq_true in Htail. specialize (Hshort Htail). lia.
      + pose proof (makedirs_split_shorter name) as Hshort.
        destruct (makedirs_split name) as [head tail]. simpl in Hshort.
        destruct (bool_decide (head ≠ "")) eqn:Hhead; [|done].
        destruct (bool_decide (tail ≠ "")) eqn:Htail; [|done].
        apply bool_decide_eq_true in Htail. specialize (Hshort Htail).
        cbn [andb]. destruct (negb _); [|done].
        rewrite (IH depth2 head fs) by lia. done. }
  intros Hdepth. by apply Hany.
Qed.

Lemma makedirs_lookup name fs d :
  makedirs name fs !! d = fs !! d ∨
  (fs !! d = None ∧ makedirs name fs !! d = Some ∅ ∧ leads_to d name).
Proof. apply makedirs_within_lookup. Qed.

(** A directory that is there is left as it is. *)
Lemma makedirs_keeps name fs d :
  is_Some (fs !! d) → makedirs name fs !! d = fs !! d.
Proof.
  intros [e He]. destruct (makedirs_lookup name fs d) as [?|(? & _)]; [done|congruence].
Qed.

Lemma makedirs_is_Some name fs d :
  is_Some (fs !! d) → is_Some (makedirs name fs !! d).
Proof. intros H. by rewrite makedirs_keeps. Qed.

(** Nothing changes at a path that does not lead to the one asked for. *)
Lemma makedirs_other name fs d :
  ¬ leads_to d name → makedirs name fs !! d = fs !! d.
Proof.
  intros Hd. by destruct (makedirs_lookup name fs d) as [?|(_ & _ & ?)].
Qed.

(** The directory asked for is there afterwards, when its path ends in a
    name. *)
Lemma makedirs_made name fs :
  (split name).2 ≠ "" → (split name).2 ≠ "." →
  is_Some (makedirs name fs !! name).
Proof.
  intros Htail Hdot. unfold makedirs.
  destruct name as [|c name]; [done|].
  cbn [String.length makedirs_within]. unfold makedirs_split.
  destruct (split (String c name)) as [head tail]. simpl in Htail, Hdot.
  rewrite (bool_decide_false (tail = "")) by done.
  rewrite (bool_decide_false (tail = ".")) by done.
  destruct (_ && _ && _); unfold mkdir_exist_ok; rewrite lookup_insert_eq; eauto.
Qed.

(** [os.path.split] gives back the name [os.path.join] has added. *)
Lemma split_join_tail a t :
  t ≠ "" → sep ∉ chars t → (split (join a t)).2 = t.
Proof.
  intros Ht Hsep.
  assert (∀ l, rfind_from sep ((l ++ [sep]) ++ chars t) 0 (-1) = Z.of_nat (length l))
    as Hrfind.
  { intros l. rewrite !rfind_from_app. cbn [rfind_from].
    rewrite bool_decide_true by done. rewrite rfind_from_not_in by done. lia. }
  assert (∀ l p, chars p = (l ++ [sep]) ++ chars t → (split p).2 = t) as Hcut.
  { intros l p Hp. unfold split, rfind. cbn [snd]. rewrite Hp, Hrfind.
    rewrite drop_app_length'; [apply text_chars|].
    rewrite length_app. simpl. lia. }
  destruct t as [|c t]; [done|]. unfold join.
  rewrite bool_decide_false
    by (intros ->; apply Hsep; simpl; apply elem_of_cons; by left).
  destruct (rev (chars a)) as [|last l] eqn:Hrev.
  - unfold split, rfind. cbn [snd]. rewrite rfind_from_not_in by done.
    simpl. f_equal. apply text_chars.
  - assert (chars a = rev l ++ [last]) as Ha.
    { rewrite <- (rev_involutive (chars a)), Hrev. done. }
    case_bool_decide as Hlast.
    + subst last. apply (Hcut (rev l)). by rewrite chars_app, Ha.
    + apply (Hcut (chars a)). rewrite chars_app. simpl. by rewrite <- app_assoc.
Qed.

Lemma makedirs_join_made a t fs :
  t ≠ "" → t ≠ "." → sep ∉ chars t →
  is_Some (makedirs (join a t) fs !! join a t).
Proof.
  intros Ht Hdot Hsep. apply makedirs_made; by rewrite split_join_tail.
Qed.

End makedirs_facts.

(** ** index: the course of a request *)

Section index_course_facts.
Variable max_str_digits : N.
Variable RUNS_DIR : string.
Variable listdir_order : directory → list string.
Variable secure_filename : string → string.
Variable calculate_parameters : filesystem → string → color → detection.
Variable create_mockups :
  string → string → gmap string geometry → string → filesystem → filesystem.
Variable uuid4_hex : string.

Hypothesis secure_filename_empty : secure_filename "" = "".

Local Abbreviation handle :=
  (index max_str_digits RUNS_DIR listdir_order secure_filename
     calculate_parameters create_mockups uuid4_hex).
Local Abbreviation prepare :=
  (index_prepare max_str_digits RUNS_DIR listdir_order secure_filename
     calculate_parameters uuid4_hex).
Local Abbreviation box_dir := (job_box_dir RUNS_DIR uuid4_hex).
Local Abbreviation mockup_dir := (job_mockup_dir RUNS_DIR uuid4_hex).
Local Abbreviation design_dir := (job_design_dir RUNS_DIR uuid4_hex).
Local Abbreviation output_dir := (job_output_dir RUNS_DIR uuid4_hex).
Local Abbreviation files_of := (job_files RUNS_DIR secure_filename uuid4_hex).
Local Abbreviation some_accepted := (has_accepted secure_filename).

(** The four directories of the job are there once [os.makedirs] has run
    on each. *)
Lemma job_dirs_made fs :
  let fs0 := makedirs output_dir (makedirs design_dir (makedirs mockup_dir
               (makedirs box_dir fs))) in
  is_Some (fs0 !! box_dir) ∧ is_Some (fs0 !! mockup_dir) ∧
  is_Some (fs0 !! design_dir) ∧ is_Some (fs0 !! output_dir).
Proof.
  assert (∀ a t fs1, t ≠ "" → t ≠ "." →
            bool_decide (OsPath.sep ∈ Text.chars t) = false →
            is_Some (makedirs (OsPath.join a t) fs1 !! OsPath.join a t)) as Hmade.
  { intros a t fs1 ?? Hsep. apply makedirs_join_made; try done.
    by apply bool_decide_eq_false in Hsep. }
  unfold job_box_dir, job_mockup_dir, job_design_dir, job_output_dir. cbv zeta.
  split_and!; repeat first [by apply Hmade | apply makedirs_is_Some].
Qed.

Lemma saved_is_Some files target_dir dir fs :
  is_Some (fs !! dir) → is_Some (saved secure_filename files target_dir fs !! dir).
Proof.
  intros Hdir. unfold saved. destruct (decide (dir = target_dir)) as [->|Hne].
  - destruct Hdir as [entries Hdir].
    destruct (foldl_store_lookup secure_filename target_dir
                (filter (accepted secure_filename) files) fs entries Hdir)
      as (entries' & -> & _). eauto.
  - by rewrite foldl_store_other_dir.
Qed.

Lemma save_files_saved files target_dir fs :
  is_Some (fs !! target_dir) →
  save_files secure_filename files target_dir fs =
    (inr (some_accepted files), saved secure_filename files target_dir fs).
Proof.
  intros Hdir. unfold save_files. by rewrite save_files_loop_spec.
Qed.

(** A POST whose color is read and whose three lists of uploads are not
    empty gets its directories and its uploads written before anything else
    is decided. *)
Lemma index_prepare_saved request fs target_color :
  method request = POST →
  parse_color max_str_digits (form request) = inr target_color →
  getlist request "box_mockups" ≠ [] →
  getlist request "mockups" ≠ [] →
  getlist request "designs" ≠ [] →
  prepare request fs =
    if some_accepted (getlist request "designs")
       && some_accepted (getlist request "mockups")
       && some_accepted (getlist request "box_mockups")
    then
      match build_parameters listdir_order calculate_parameters box_dir
              target_color (files_of request fs) with
      | (inl e, fs') => (inl e, fs')
      | (inr parameters, fs') =>
          if bool_decide (parameters = ∅)
          then (inr (Replied (error_page NO_BOXES)), fs')
          else (inr (Ready design_dir mockup_dir parameters output_dir), fs')
      end
    else (inr (Replied (error_page NO_VALID_IMAGES)), files_of request fs).
Proof.
  intros Hmethod Hcolor Hboxes Hmockups Hdesigns.
  unfold index_prepare. rewrite Hmethod, Hcolor.
  rewrite !bool_decide_false by done. cbn [orb].
  pose proof (job_dirs_made fs) as Hmade. revert Hmade.
  unfold job_files, job_box_dir, job_mockup_dir, job_design_dir, job_output_dir.
  cbv zeta.
  generalize (OsPath.join (OsPath.join RUNS_DIR uuid4_hex) "box_mockups").
  generalize (OsPath.join (OsPath.join RUNS_DIR uuid4_hex) "mockups").
  generalize (OsPath.join (OsPath.join RUNS_DIR uuid4_hex) "designs").
  generalize (OsPath.join (OsPath.join RUNS_DIR uuid4_hex) "output").
  intros od dd md bd.
  unfold mbind, io_bind, os_makedirs. cbv beta iota.
  set (fs0 := makedirs od (makedirs dd (makedirs md (makedirs bd fs)))).
  intros (Hbd & Hmd & Hdd & _).
  rewrite save_files_saved by done. cbv beta iota.
  rewrite save_files_saved by (by apply saved_is_Some). cbv beta iota.
  rewrite save_files_saved by (by do 2 apply saved_is_Some). cbv beta iota.
  destruct (some_accepted (getlist request "designs")),
    (some_accepted (getlist request "mockups")),
    (some_accepted (getlist request "box_mockups")); simpl; try done.
  destruct (build_parameters _ _ _ _ _) as [[e|parameters] fs']; [done|].
  by case_bool_decide.
Qed.

Hypothesis listdir_order_spec :
  ∀ entries : directory, listdir_order entries ≡ₚ (map_to_list entries).*1.

Lemma build_parameters_leaves_files dir target_color fs :
  (build_parameters listdir_order calculate_parameters dir target_color fs).2 = fs.
Proof.
  destruct (fs !! dir) as [entries|] eqn:Hdir.
  - by rewrite (build_parameters_eq _ _ _ _ _ entries).
  - by rewrite build_parameters_missing_dir.
Qed.

(** The page [index] has sent when it stops before the rendering. *)
Lemma index_prepare_replied_shape request fs page fs1 :
  prepare request fs = (inr (Replied page), fs1) →
  (method request = GET ∧ page = Response None None None 200 ∧ fs1 = fs) ∨
  (method request = POST ∧ ∃ m, page = error_page m ∧ m ≠ NO_OUTPUTS).
Proof.
  unfold index_prepare.
  destruct (method request); [intros [= <- <-]; by left|].
  intros Hrun. right. split; [done|]. revert Hrun.
  destruct (parse_color _ _) as [exc|target_color]; [intros [= <- <-]; by eexists|].
  destruct (_ || _ || _); [intros [= <- <-]; by eexists|].
  unfold mbind, io_bind, mret, io_ret, os_makedirs.
  repeat match goal with
         | |- context [save_files ?sf ?files ?dir ?fs] =>
             destruct (save_files sf files dir fs) as [[?|[]] ?]; try done
         end;
  simpl; try (intros [= <- <-]; by eexists);
  repeat match goal with
         | |- context [build_parameters ?l ?c ?d ?t ?fs] =>
             destruct (build_parameters l c d t fs) as [[?|?] ?]; try done
         end;
  case_bool_decide; try done; intros [= <- <-]; by eexists.
Qed.

(** X14.  Every page [index] returns has one of three shapes: the empty
    form, with status 200, for a GET, which leaves the file system as it
    was; an error text with status 400 and neither outputs nor job id; or,
    with status 200 and no error, a list of outputs that is not empty,
    together with the id of the job. *)
Theorem index_page_shape request fs page fs' :
  handle request fs = (inr page, fs') →
  (method request = GET ∧ page = Response None None None 200 ∧ fs' = fs) ∨
  (method request = POST ∧
   ((∃ m, page = Response (Some m) None None 400) ∨
    (∃ names, names ≠ [] ∧
              page = Response None (Some names) (Some uuid4_hex) 200))).
Proof.
  intros Hrun. rewrite index_unfold in Hrun.
  destruct (prepare request fs) as [[e|[page'|dd md ps od]] fs1] eqn:Hprep.
  - done.
  - injection Hrun as <- <-.
    destruct (index_prepare_replied_shape _ _ _ _ Hprep)
      as [?|(? & m & -> & _)]; [by left|].
    right. split; [done|]. left. by exists m.
  - destruct (index_prepare_ready _ _ _ _ _ _ _ _ _ _ _ _ _ Hprep) as (Hmethod & _).
    right. split; [done|]. rewrite index_finish_eq in Hrun.
    destruct (create_mockups _ _ _ _ _ !! _) as [entries|]; [|done].
    injection Hrun as <- <-. case_bool_decide as Himages.
    + left. by eexists.
    + right. eexists. split; [|done]. by rewrite sorted_nil.
Qed.

(** X15.  A request that is not a POST with a color that can be read and
    with uploads in each of the three lists leaves the file system as it
    was. *)
Theorem index_writes_nothing_when_rejected_early request fs :
  method request = GET
  ∨ (∃ exc, parse_color max_str_digits (form request) = inl exc)
  ∨ getlist request "box_mockups" = []
  ∨ getlist request "mockups" = []
  ∨ getlist request "designs" = [] →
  ∃ page, handle request fs = (inr page, fs).
Proof.
  intros Hearly. unfold index.
  destruct (method request); [by eexists|].
  destruct (parse_color _ _) as [exc|target_color]; [by eexists|].
  destruct Hearly as [?|[[??]|Hlists]]; [done..|].
  assert (bool_decide (getlist request "box_mockups" = [])
          || bool_decide (getlist request "mockups" = [])
          || bool_decide (getlist request "designs" = []) = true) as ->.
  { destruct Hlists as [->|[->| ->]]; rewrite ?bool_decide_true by done;
      by rewrite ?orb_true_r. }
  by eexists.
Qed.

Lemma saved_other files target_dir dir fs :
  dir ≠ target_dir → saved secure_filename files target_dir fs !! dir = fs !! dir.
Proof. intros Hne. unfold saved. by rewrite foldl_store_other_dir. Qed.

Lemma job_files_other request fs dir :
  ¬ leads_to dir box_dir → ¬ leads_to dir mockup_dir →
  ¬ leads_to dir design_dir → ¬ leads_to dir output_dir →
  files_of request fs !! dir = fs !! dir.
Proof.
  intros Hbox Hmockup Hdesign Houtput. unfold job_files.
  rewrite !saved_other by (intros ->; auto using leads_to_refl).
  by rewrite !makedirs_other.
Qed.

(** The state in which a POST past the first two checks leaves the files
    when it stops before the rendering or comes to it. *)
Lemma index_prepare_files request fs target_color :
  method request = POST →
  parse_color max_str_digits (form request) = inr target_color →
  getlist request "box_mockups" ≠ [] →
  getlist request "mockups" ≠ [] →
  getlist request "designs" ≠ [] →
  (prepare request fs).2 = files_of request fs.
Proof.
  intros. rewrite (index_prepare_saved _ _ target_color) by done.
  destruct (_ && _ && _); [|done].
  pose proof (build_parameters_leaves_files box_dir target_color (files_of request fs))
    as Hfs.
  destruct (build_parameters _ _ _ _ _) as [[e|parameters] fs']; simpl in *; [done|].
  by case_bool_decide.
Qed.

(** X16.  When the renderer writes to its output directory only, and the
    names [secure_filename] gives hold no separator, [index] changes nothing
    outside the four directories of the job and the directories that lead
    to them: the job's own directory and those above it, which
    [os.makedirs] makes where they are missing.  Whatever the request, a
    directory whose path leads to none of the four is after the call what
    it was before. *)
Theorem index_writes_only_job_directories request fs dir :
  (∀ dd md ps od fs0 d, d ≠ od → create_mockups dd md ps od fs0 !! d = fs0 !! d) →
  (∀ name, OsPath.sep ∉ Text.chars (secure_filename name)) →
  ¬ leads_to dir box_dir → ¬ leads_to dir mockup_dir →
  ¬ leads_to dir design_dir → ¬ leads_to dir output_dir →
  (handle request fs).2 !! dir = fs !! dir.
Proof.
  intros Hrender _ Hbox Hmockup Hdesign Houtput.
  assert (dir ≠ output_dir) as Hne by (intros ->; auto using leads_to_refl).
  destruct (method request) eqn:Hmethod.
  { unfold index. by rewrite Hmethod. }
  destruct (parse_color max_str_digits (form request)) as [exc|target_color] eqn:Hcolor.
  { unfold index. by rewrite Hmethod, Hcolor. }
  destruct (getlist request "box_mockups") as [|b lb] eqn:Hb.
  { unfold index. by rewrite Hmethod, Hcolor, Hb. }
  destruct (getlist request "mockups") as [|m lm] eqn:Hm.
  { unfold index. by rewrite Hmethod, Hcolor, Hb, Hm. }
  destruct (getlist request "designs") as [|d ld] eqn:Hd.
  { unfold index. by rewrite Hmethod, Hcolor, Hb, Hm, Hd. }
  - assert (getlist request "box_mockups" ≠ []) as Hb' by (by rewrite Hb).
    assert (getlist request "mockups" ≠ []) as Hm' by (by rewrite Hm).
    assert (getlist request "designs" ≠ []) as Hd' by (by rewrite Hd).
    clear Hb Hm Hd.
    pose proof (index_prepare_files request fs target_color Hmethod Hcolor Hb' Hm' Hd')
      as Hfiles.
    rewrite index_unfold.
    destruct (prepare request fs) as [[e|[page'|dd md ps od]] fs1] eqn:Hprep;
      simpl in Hfiles; subst fs1; simpl.
    + by apply job_files_other.
    + by apply job_files_other.
    + destruct (index_prepare_ready _ _ _ _ _ _ _ _ _ _ _ _ _ Hprep) as (_ & -> & _).
      rewrite index_finish_eq.
      destruct (create_mockups _ _ _ _ _ !! _); simpl;
        rewrite Hrender by done; by apply job_files_other.
Qed.

(** *** Requests without an acceptable image, or without a box *)

Lemma job_files_dirs request fs :
  is_Some (files_of request fs !! box_dir) ∧
  is_Some (files_of request fs !! mockup_dir) ∧
  is_Some (files_of request fs !! design_dir) ∧
  is_Some (files_of request fs !! output_dir).
Proof.
  unfold job_files. destruct (job_dirs_made fs) as (? & ? & ? & ?).
  split_and!; by do 3 apply saved_is_Some.
Qed.

Lemma saved_holds files target_dir fs f :
  is_Some (fs !! target_dir) → f ∈ files → accepted secure_filename f →
  ∃ entries,
    saved secure_filename files target_dir fs !! target_dir = Some entries ∧
    is_Some (entries !! stored_name secure_filename f).
Proof.
  intros [entries Hdir] Hf Hacc. unfold saved.
  destruct (foldl_store_lookup secure_filename target_dir
              (filter (accepted secure_filename) files) fs entries Hdir)
    as (entries' & Hdir' & Hin & _).
  exists entries'. split; [done|]. apply Hin. by apply list_elem_of_filter.
Qed.

Lemma saved_keeps files target_dir fs dir entries name :
  fs !! dir = Some entries → is_Some (entries !! name) →
  ∃ entries',
    saved secure_filename files target_dir fs !! dir = Some entries' ∧
    is_Some (entries' !! name).
Proof.
  intros Hdir Hname. destruct (decide (dir = target_dir)) as [->|Hne].
  - unfold saved. rewrite (foldl_store_put _ _ _ _ entries) by done.
    rewrite lookup_insert_eq. eexists. split; [done|].
    rewrite foldl_put_lookup. by destruct (last_data _ _ _).
  - exists entries. by rewrite saved_other.
Qed.

(** What the answers of a POST past the first two checks can be. *)
Lemma index_late_answers request fs target_color :
  method request = POST →
  parse_color max_str_digits (form request) = inr target_color →
  getlist request "box_mockups" ≠ [] →
  getlist request "mockups" ≠ [] →
  getlist request "designs" ≠ [] →
  let all_accepted :=
    some_accepted (getlist request "designs")
    && some_accepted (getlist request "mockups")
    && some_accepted (getlist request "box_mockups") in
  let found_none :=
    ∀ filename entries,
      files_of request fs !! box_dir = Some entries →
      is_Some (entries !! filename) → allowed_file filename = true →
      found (calculate_parameters (files_of request fs)
               (OsPath.join box_dir filename) target_color) = false in
  (all_accepted = false →
   handle request fs = (inr (error_page NO_VALID_IMAGES), files_of request fs)) ∧
  (all_accepted = true → found_none →
   handle request fs = (inr (error_page NO_BOXES), files_of request fs)) ∧
  (all_accepted = true → ¬ found_none →
   ∀ page fs', handle request fs = (inr page, fs') →
     error page ≠ Some NO_VALID_IMAGES ∧ error page ≠ Some NO_BOXES) ∧
  (all_accepted = true →
   ∀ page fs', handle request fs = (inr page, fs') →
     error page ≠ Some NO_VALID_IMAGES).
Proof.
  intros Hmethod Hcolor Hb Hm Hd all_accepted found_none.
  pose proof (index_prepare_saved request fs target_color Hmethod Hcolor Hb Hm Hd)
    as Hprep. fold all_accepted in Hprep.
  destruct (job_files_dirs request fs) as ([entries Hdir] & _).
  rewrite (build_parameters_eq _ _ _ _ _ entries) in Hprep by done.
  set (params := parameters _) in Hprep.
  assert (∀ filename,
    params !! filename =
      if decide (is_Some (entries !! filename) ∧ allowed_file filename = true
                 ∧ found (calculate_parameters (files_of request fs)
                            (OsPath.join box_dir filename) target_color) = true)
      then Some (geometry_of (calculate_parameters (files_of request fs)
                                (OsPath.join box_dir filename) target_color))
      else None) as Hlookup.
  { intros filename. unfold params. rewrite build_loop_lookup. simpl.
    rewrite lookup_empty.
    destruct (decide (filename ∈ _ ∧ _)) as [H|H].
    - rewrite decide_True; [done|].
      by rewrite <- (listdir_order_elem_of listdir_order listdir_order_spec).
    - rewrite decide_False; [done|].
      by rewrite <- (listdir_order_elem_of listdir_order listdir_order_spec). }
  assert (params = ∅ ↔ found_none) as Hempty.
  { split.
    - intros Hnil filename entries' Hdir' Hin Hallowed.
      assert (entries' = entries) as -> by congruence.
      destruct (found _) eqn:Hfound; [|done].
      specialize (Hlookup filename). rewrite Hnil, lookup_empty in Hlookup.
      by rewrite decide_True in Hlookup.
    - intros Hnone. apply map_empty. intros filename. rewrite Hlookup.
      rewrite decide_False; [done|]. intros (Hin & Hallowed & Hfound).
      by rewrite (Hnone filename entries Hdir Hin Hallowed) in Hfound. }
  split_and!.
  - intros Hall. rewrite Hall in Hprep. by rewrite index_unfold, Hprep.
  - intros Hall Hnone. rewrite Hall in Hprep.
    rewrite bool_decide_true in Hprep by (by apply Hempty).
    by rewrite index_unfold, Hprep.
  - intros Hall Hsome page fs' Hrun. rewrite Hall in Hprep.
    rewrite bool_decide_false in Hprep by (by rewrite Hempty).
    rewrite index_unfold, Hprep, index_finish_eq in Hrun.
    destruct (create_mockups _ _ _ _ _ !! _); [|done].
    injection Hrun as <- <-. by case_bool_decide.
  - intros Hall page fs' Hrun. rewrite Hall in Hprep.
    rewrite index_unfold, Hprep in Hrun. case_bool_decide.
    + by injection Hrun as <- <-.
    + rewrite index_finish_eq in Hrun.
      destruct (create_mockups _ _ _ _ _ !! _); [|done].
      injection Hrun as <- <-. by case_bool_decide.
Qed.

(** A page with one of the two errors of a job comes from a POST past the
    first two checks. *)
Lemma index_late_error request fs page fs' :
  handle request fs = (inr page, fs') →
  error page = Some NO_VALID_IMAGES ∨ error page = Some NO_BOXES →
  method request = POST ∧
  (∃ target_color, parse_color max_str_digits (form request) = inr target_color) ∧
  getlist request "box_mockups" ≠ [] ∧ getlist request "mockups" ≠ [] ∧
  getlist request "designs" ≠ [].
Proof.
  intros Hrun Herr.
  destruct (method request) eqn:Hmethod.
  { unfold index in Hrun. rewrite Hmethod in Hrun. injection Hrun as <- <-.
    by destruct Herr. }
  destruct (parse_color max_str_digits (form request)) as [exc|target_color] eqn:Hcolor.
  { unfold index in Hrun. rewrite Hmethod, Hcolor in Hrun. injection Hrun as <- <-.
    by destruct Herr. }
  destruct (getlist request "box_mockups") as [|b lb] eqn:Hb.
  { unfold index in Hrun. rewrite Hmethod, Hcolor, Hb in Hrun.
    injection Hrun as <- <-. by destruct Herr. }
  destruct (getlist request "mockups") as [|m lm] eqn:Hm.
  { unfold index in Hrun. rewrite Hmethod, Hcolor, Hb, Hm in Hrun.
    injection Hrun as <- <-. by destruct Herr. }
  destruct (getlist request "designs") as [|d ld] eqn:Hd.
  { unfold index in Hrun. rewrite Hmethod, Hcolor, Hb, Hm, Hd in Hrun.
    injection Hrun as <- <-. by destruct Herr. }
  split_and!; try done. by eexists.
Qed.

(** X17.  [index] answers that no valid image was found exactly when the
    request is a POST with a color that can be read and uploads in each of
    the three lists, of which one list holds no upload that [save_files]
    accepts. *)
Theorem index_no_valid_images_iff request fs :
  (∃ fs', handle request fs = (inr (error_page NO_VALID_IMAGES), fs')) ↔
  method request = POST ∧
  (∃ target_color, parse_color max_str_digits (form request) = inr target_color) ∧
  getlist request "box_mockups" ≠ [] ∧ getlist request "mockups" ≠ [] ∧
  getlist request "designs" ≠ [] ∧
  some_accepted (getlist request "designs")
  && some_accepted (getlist request "mockups")
  && some_accepted (getlist request "box_mockups") = false.
Proof.
  split.
  - intros [fs' Hrun].
    destruct (index_late_error _ _ _ _ Hrun) as (Hmethod & [c Hcolor] & Hb & Hm & Hd);
      [by left|].
    split_and!; try done; [by eexists|].
    destruct (index_late_answers request fs c Hmethod Hcolor Hb Hm Hd)
      as (_ & _ & _ & Hother).
    destruct (_ && _ && _) eqn:Hall; [exfalso|done].
    by apply (Hother eq_refl _ _ Hrun).
  - intros (Hmethod & [c Hcolor] & Hb & Hm & Hd & Hall).
    destruct (index_late_answers request fs c Hmethod Hcolor Hb Hm Hd) as (Hrun & _).
    eexists. by apply Hrun.
Qed.

(** X18.  [index] answers that no box was detected exactly when the request
    is a POST with a color that can be read, each of the three lists holds
    an upload that [save_files] accepts, and the detection fails on every
    image then found in the directory of the box mockups. *)
Theorem index_no_boxes_iff request fs :
  (∃ fs', handle request fs = (inr (error_page NO_BOXES), fs')) ↔
  method request = POST ∧
  getlist request "box_mockups" ≠ [] ∧ getlist request "mockups" ≠ [] ∧
  getlist request "designs" ≠ [] ∧
  some_accepted (getlist request "designs")
  && some_accepted (getlist request "mockups")
  && some_accepted (getlist request "box_mockups") = true ∧
  ∃ target_color,
    parse_color max_str_digits (form request) = inr target_color ∧
    ∀ filename entries,
      files_of request fs !! box_dir = Some entries →
      is_Some (entries !! filename) → allowed_file filename = true →
      found (calculate_parameters (files_of request fs)
               (OsPath.join box_dir filename) target_color) = false.
Proof.
  split.
  - intros [fs' Hrun].
    destruct (index_late_error _ _ _ _ Hrun) as (Hmethod & [c Hcolor] & Hb & Hm & Hd);
      [by right|].
    destruct (index_late_answers request fs c Hmethod Hcolor Hb Hm Hd)
      as (Hinvalid & _ & Hother & _).
    destruct (_ && _ && _) eqn:Hall.
    + split_and!; try done. exists c. split; [done|].
      intros filename entries Hdir Hin Hallowed.
      destruct (found _) eqn:Hfound; [exfalso|done].
      destruct (Hother eq_refl) with (page := error_page NO_BOXES) (fs' := fs')
        as [_ Hne]; [|done|done].
      intros Hnone. by rewrite (Hnone filename entries Hdir Hin Hallowed) in Hfound.
    + rewrite Hinvalid in Hrun by done. done.
  - intros (Hmethod & Hb & Hm & Hd & Hall & c & Hcolor & Hnone).
    destruct (index_late_answers request fs c Hmethod Hcolor Hb Hm Hd)
      as (_ & Hrun & _).
    eexists. by apply Hrun.
Qed.

Lemma index_late_error_files request fs page fs' :
  handle request fs = (inr page, fs') →
  error page = Some NO_VALID_IMAGES ∨ error page = Some NO_BOXES →
  fs' = files_of request fs.
Proof.
  intros Hrun Herr.
  destruct (index_late_error _ _ _ _ Hrun Herr)
    as (Hmethod & [c Hcolor] & Hb & Hm & Hd).
  pose proof (index_prepare_files request fs c Hmethod Hcolor Hb Hm Hd) as Hfiles.
  rewrite index_unfold in Hrun.
  destruct (prepare request fs) as [[e|[page'|dd md ps od]] fs1] eqn:Hprep;
    simpl in Hfiles; subst fs1.
  - done.
  - by injection Hrun as _ <-.
  - rewrite index_finish_eq in Hrun.
    destruct (create_mockups _ _ _ _ _ !! _); [|done].
    injection Hrun as <- <-. case_bool_decide; by destruct Herr.
Qed.

Lemma job_files_holds request fs :
  (∀ f, f ∈ getlist request "designs" → accepted secure_filename f →
     ∃ entries, files_of request fs !! design_dir = Some entries ∧
                is_Some (entries !! stored_name secure_filename f)) ∧
  (∀ f, f ∈ getlist request "mockups" → accepted secure_filename f →
     ∃ entries, files_of request fs !! mockup_dir = Some entries ∧
                is_Some (entries !! stored_name secure_filename f)) ∧
  (∀ f, f ∈ getlist request "box_mockups" → accepted secure_filename f →
     ∃ entries, files_of request fs !! box_dir = Some entries ∧
                is_Some (entries !! stored_name secure_filename f)).
Proof.
  unfold job_files.
  destruct (job_dirs_made fs) as (Hbd & Hmd & Hdd & _).
  set (fs0 := makedirs output_dir (makedirs design_dir (makedirs mockup_dir
                (makedirs box_dir fs)))) in *.
  split_and!; intros f Hf Hacc.
  - destruct (saved_holds (getlist request "designs") design_dir fs0 f)
      as (e1 & H1 & Hn1); [done..|].
    destruct (saved_keeps (getlist request "mockups") mockup_dir _ _ _ _ H1 Hn1)
      as (e2 & H2 & Hn2).
    destruct (saved_keeps (getlist request "box_mockups") box_dir _ _ _ _ H2 Hn2)
      as (e3 & H3 & Hn3).
    by exists e3.
  - destruct (saved_holds (getlist request "mockups") mockup_dir
                (saved secure_filename (getlist request "designs") design_dir fs0) f)
      as (e1 & H1 & Hn1); [by apply saved_is_Some|done..|].
    destruct (saved_keeps (getlist request "box_mockups") box_dir _ _ _ _ H1 Hn1)
      as (e2 & H2 & Hn2).
    by exists e2.
  - apply saved_holds; [|done..]. by do 2 apply saved_is_Some.
Qed.

(** X19.  A request answered with "no valid image" or with "no box
    detected" leaves its traces: the four directories of the job exist, and
    every upload that [save_files] accepts has been written to the directory
    of its list. *)
Theorem index_late_error_leaves_files request fs page fs' :
  handle request fs = (inr page, fs') →
  error page = Some NO_VALID_IMAGES ∨ error page = Some NO_BOXES →
  (is_Some (fs' !! box_dir) ∧ is_Some (fs' !! mockup_dir) ∧
   is_Some (fs' !! design_dir) ∧ is_Some (fs' !! output_dir)) ∧
  (∀ f, f ∈ getlist request "designs" → accepted secure_filename f →
     ∃ entries, fs' !! design_dir = Some entries ∧
                is_Some (entries !! stored_name secure_filename f)) ∧
  (∀ f, f ∈ getlist request "mockups" → accepted secure_filename f →
     ∃ entries, fs' !! mockup_dir = Some entries ∧
                is_Some (entries !! stored_name secure_filename f)) ∧
  (∀ f, f ∈ getlist request "box_mockups" → accepted secure_filename f →
     ∃ entries, fs' !! box_dir = Some entries ∧
                is_Some (entries !! stored_name secure_filename f)).
Proof.
  intros Hrun Herr. rewrite (index_late_error_files _ _ _ _ Hrun Herr).
  split; [apply job_files_dirs|apply job_files_holds].
Qed.

End index_course_facts.

(** ** serve_output: the images a page lists *)

Section serve_output_facts.
Variable max_str_digits : N.
Variable RUNS_DIR : string.
Variable listdir_order : directory → list string.
Variable secure_filename : string → string.
Variable calculate_parameters : filesystem → string → color → detection.
Variable create_mockups :
  string → string → gmap string geometry → string → filesystem → filesystem.
Variable uuid4_hex : string.
Variable file_response : Type.
Variable send_from_directory : string → string → io file_response.

Hypothesis listdir_order_spec :
  ∀ entries : directory, listdir_order entries ≡ₚ (map_to_list entries).*1.

(** X20.  Every image a page of [index] lists can be asked from
    [serve_output] under the job id of the page: [serve_output] then reads
    from the directory in which [index] found the image, and the image is a
    file of that directory. *)
Theorem serve_output_reads_listed_outputs request fs page fs' names :
  index max_str_digits RUNS_DIR listdir_order secure_filename
    calculate_parameters create_mockups uuid4_hex request fs = (inr page, fs') →
  outputs page = Some names →
  ∃ job directory entries,
    job_id page = Some job ∧
    fs' !! directory = Some entries ∧
    ∀ name, name ∈ names →
      serve_output RUNS_DIR file_response send_from_directory job name
        = send_from_directory directory name ∧
      is_Some (entries !! name).
Proof.
  intros Hrun Hout. rewrite index_unfold in Hrun.
  destruct (index_prepare _ _ _ _ _ _ request fs)
    as [[e|[page'|dd md ps od]] fs1] eqn:Hprep.
  - done.
  - injection Hrun as <- <-.
    destruct (index_prepare_replied _ _ _ _ _ _ _ _ _ _ Hprep) as [? _]. congruence.
  - destruct (index_prepare_ready _ _ _ _ _ _ _ _ _ _ _ _ _ Hprep) as (_ & -> & _).
    rewrite index_finish_eq in Hrun.
    destruct (create_mockups _ _ _ _ _ !! _) as [entries|] eqn:Hdir; [|done].
    injection Hrun as <- <-.
    case_bool_decide; [done|]. simpl in Hout. injection Hout as <-.
    exists uuid4_hex, (OsPath.join (OsPath.join RUNS_DIR uuid4_hex) "output"), entries.
    split_and!; [done|done|].
    intros name Hname. split; [done|].
    rewrite sorted_perm in Hname. apply list_elem_of_filter in Hname as [_ Hname].
    by apply (listdir_order_elem_of listdir_order listdir_order_spec).
Qed.

End serve_output_facts.

(** * The front end at work on the small installation *)

Example allowed_file_png : allowed_file "Photo.PNG" = true.
Proof. vm_compute. reflexivity. Qed.

Example allowed_file_hidden : allowed_file ".png" = false.
Proof. vm_compute. reflexivity. Qed.

Example allowed_file_gif : allowed_file "a.b/c.gif" = false.
Proof. vm_compute. reflexivity. Qed.

Example allowed_file_two_dots : allowed_file "a..jpeg" = true.
Proof. vm_compute. reflexivity. Qed.

Example sorted_is_stable :
  sorted Text.lower ["b.png"; "A.png"; "a.png"; "C.png"; "B.png"]
  = ["A.png"; "a.png"; "b.png"; "B.png"; "C.png"].
Proof. vm_compute. reflexivity. Qed.

Example int_reads_blanks_sign_and_underscores :
  PyLong.int_of_str 4300 10 " -1_000 " = inr (-1000).
Proof. reflexivity. Qed.

Example int_rejects_two_underscores :
  PyLong.int_of_str 4300 10 "1__0" = inl (InvalidLiteral 10 "1__0").
Proof. reflexivity. Qed.

Example int_reads_hex_prefix : PyLong.int_of_str 4300 16 "0x_1f" = inr 31.
Proof. reflexivity. Qed.

Example int_of_none : PyLong.int_of 4300 None = inl IntOfNoneError.
Proof. reflexivity. Qed.

Example splitext_hidden_file : OsPath.splitext "a/b.c/.d" = ("a/b.c/.d", "").
Proof. reflexivity. Qed.

Example join_job_dir : OsPath.join "runs/job1" "output" = "runs/job1/output".
Proof. reflexivity. Qed.

Example split_output_dir : OsPath.split "runs/job1/output" = ("runs/job1", "output").
Proof. reflexivity. Qed.

Example split_drops_separators : OsPath.split "runs//" = ("runs", "").
Proof. reflexivity. Qed.

Example split_root : OsPath.split "//mug.png" = ("//", "mug.png").
Proof. reflexivity. Qed.

Example makedirs_makes_the_way :
  makedirs "runs/job1/output" {[ "runs" := {[ "readme.txt" := [] ]} ]}
  = {[ "runs" := {[ "readme.txt" := [] ]}; "runs/job1" := ∅;
       "runs/job1/output" := ∅ ]}.
Proof. reflexivity. Qed.

Example makedirs_exist_ok :
  makedirs "runs/job1" {[ "runs" := ∅; "runs/job1" := {[ "mug.png" := [] ]} ]}
  = {[ "runs" := ∅; "runs/job1" := {[ "mug.png" := [] ]} ]}.
Proof. reflexivity. Qed.

Lemma sample_listdir_order_spec (entries : directory) :
  Sample.listdir_order entries ≡ₚ (map_to_list entries).*1.
Proof. reflexivity. Qed.

Lemma sample_secure_filename_empty : Sample.secure_filename "" = "".
Proof. reflexivity. Qed.

(** ** parse_color *)



(** C5 fails as stated: the blanks around the field are stripped before
    anything else.  A field that is not six hexadecimal characters, with or
    without a leading [#], is then read as a color where the claim asks for
    an error; and so is a field of blanks, which is not empty, when the
    fields [r], [g], [b] hold a color. *)
Lemma parse_color_strips_hex_field :
  let form1 : gmap string string := {[ "hex_color" := " #ff8000 " ]} in
  let form2 : gmap string string :=
    {[ "hex_color" := "  "; "r" := "1"; "g" := "2"; "b" := "3" ]} in
  form1 !! "hex_color" = Some " #ff8000 " ∧
  six_hex_digits (without_leading_hash " #ff8000 ") = false ∧
  parse_color 4300 form1 = inr (255, 128, 0) ∧
  form2 !! "hex_color" = Some "  " ∧
  six_hex_digits (without_leading_hash "  ") = false ∧
  parse_color 4300 form2 = inr (1, 2, 3).
Proof. split_and!; vm_compute; reflexivity. Qed.

Example parse_color_strips_blanks_and_hashes :
  parse_color 4300 {[ "hex_color" := " ##FF8000 " ]} = inr (255, 128, 0).
Proof. vm_compute. reflexivity. Qed.

Example parse_color_reads_signed_pairs :
  parse_color 4300 {[ "hex_color" := "+f-f0f" ]} = inr (15, -15, 15).
Proof. vm_compute. reflexivity. Qed.

Lemma parse_color_hex_field_witness :
  let form1 : gmap string string := {[ "hex_color" := " #FF8000 "; "r" := "1" ]} in
  let form2 : gmap string string := {[ "hex_color" := "#FF80" ]} in
  let form3 : gmap string string := {[ "hex_color" := "ff80zz" ]} in
  hex_field form1 = "#FF8000" ∧
  parse_color 4300 form1 = inr (255, 128, 0) ∧
  parse_color 4300 form2 = inl HexLengthError ∧
  ∃ literal, parse_color 4300 form3 = inl (InvalidLiteral 16 literal).
Proof.
  cbv zeta. split; [vm_compute; reflexivity|]. split_and!.
  - assert (hex_field {[ "hex_color" := " #FF8000 "; "r" := "1" ]} ≠ "") as Hhex
      by (vm_compute; discriminate).
    destruct (parse_color_hex_field 4300 _ Hhex eq_refl) as (Hdigits & _ & _).
    rewrite Hdigits; vm_compute; reflexivity.
  - assert (hex_field {[ "hex_color" := "#FF80" ]} ≠ "") as Hhex
      by (vm_compute; discriminate).
    destruct (parse_color_hex_field 4300 _ Hhex eq_refl) as (_ & Hlength & _).
    apply Hlength. vm_compute. discriminate.
  - assert (hex_field {[ "hex_color" := "ff80zz" ]} ≠ "") as Hhex
      by (vm_compute; discriminate).
    destruct (parse_color_hex_field 4300 _ Hhex eq_refl) as (_ & _ & Houtside).
    apply Houtside; vm_compute; reflexivity.
Defined.

(** C9 fails as stated: a hex color field holding a blank is not empty, and
    the result then follows the fields [r], [g], [b]. *)
Lemma parse_color_blank_hex_reads_rgb :
  let form1 : gmap string string :=
    {[ "hex_color" := " "; "r" := "1"; "g" := "2"; "b" := "3" ]} in
  let form2 : gmap string string :=
    {[ "hex_color" := " "; "r" := "9"; "g" := "2"; "b" := "3" ]} in
  form1 !! "hex_color" = Some " " ∧
  form2 !! "hex_color" = Some " " ∧
  parse_color 4300 form1 = inr (1, 2, 3) ∧
  parse_color 4300 form2 = inr (9, 2, 3).
Proof. split_and!; vm_compute; reflexivity. Qed.

Lemma parse_color_hex_ignores_rgb_witness :
  let form1 : gmap string string :=
    {[ "hex_color" := "#00ff00"; "r" := "1"; "g" := "2"; "b" := "3" ]} in
  let form2 : gmap string string :=
    {[ "hex_color" := "#00ff00"; "r" := "900"; "b" := "x" ]} in
  parse_color 4300 form1 = parse_color 4300 form2.
Proof.
  apply parse_color_hex_ignores_rgb.
  - vm_compute. reflexivity.
  - vm_compute. discriminate.
Defined.

(** ** build_parameters *)



Lemma build_parameters_skips_failed_detection_witness :
  ∃ params,
    build_parameters Sample.listdir_order Sample.calculate_parameters
      Sample.box_dir Sample.red Sample.boxes = (inr params, Sample.boxes) ∧
    params !! "shirt.jpg" = None ∧
    params !! "mug.png" = Some (geometry_of Sample.mug_box).
Proof.
  destruct (build_parameters_skips_failed_detection Sample.listdir_order
              Sample.calculate_parameters sample_listdir_order_spec
              Sample.boxes Sample.box_dir Sample.red
              {[ "mug.png" := []; "shirt.jpg" := []; "notes.txt" := [] ]})
    as (params & Hrun & Hskip & Hkeep); [reflexivity|].
  exists params. split_and!; [exact Hrun| |].
  - apply (Hskip "shirt.jpg" PyNone PyNone PyNone PyNone);
      [reflexivity|by left].
  - apply (Hkeep "mug.png"); [by eexists|reflexivity|reflexivity].
Defined.

Lemma build_parameters_calls_detector_once_witness :
  ∃ st,
    build_parameters_run Sample.listdir_order Sample.calculate_parameters
      Sample.box_dir Sample.red Sample.boxes = (inr st, Sample.boxes) ∧
    detector_calls st =
      [("runs/job1/box_mockups/shirt.jpg", Sample.red);
       ("runs/job1/box_mockups/mug.png", Sample.red)].
Proof.
  destruct (build_parameters_calls_detector_once Sample.listdir_order
              Sample.calculate_parameters sample_listdir_order_spec
              Sample.boxes Sample.box_dir Sample.red
              {[ "mug.png" := []; "shirt.jpg" := []; "notes.txt" := [] ]})
    as (st & names & Hrun & _ & Hcalls & Hnames & _); [reflexivity|].
  exists st. split; [exact Hrun|]. rewrite Hcalls, Hnames. reflexivity.
Defined.

(** ** save_files and index *)

Lemma save_files_stores_allowed_witness :
  let files := [Sample.png "mug.png"; Sample.png "notes.txt"; Upload None [];
                Upload (Some "") []; Sample.png "my shirt.JPG"] in
  let fs : filesystem := {[ "runs/job1/mockups" := ∅ ]} in
  save_files Sample.secure_filename files "runs/job1/mockups" fs =
    (inr true,
     {[ "runs/job1/mockups" := {[ "mug.png" := []; "myshirt.JPG" := [] ]} ]}).
Proof.
  cbv zeta.
  destruct (save_files_stores_allowed Sample.secure_filename
              sample_secure_filename_empty "runs/job1/mockups"
              [Sample.png "mug.png"; Sample.png "notes.txt"; Upload None [];
               Upload (Some "") []; Sample.png "my shirt.JPG"]
              {[ "runs/job1/mockups" := ∅ ]} ∅)
    as [_ (entries' & Hrun & _)]; [reflexivity|].
  rewrite Hrun. reflexivity.
Defined.

Lemma index_reports_missing_outputs_witness :
  (index 4300 Sample.RUNS_DIR Sample.listdir_order Sample.secure_filename
     Sample.calculate_parameters Sample.create_mockups Sample.uuid4_hex
     Sample.good_request ∅).1
  = inr (Response None (Some ["mug.png"]) (Some "job1") 200) ∧
  (index 4300 Sample.RUNS_DIR Sample.listdir_order Sample.secure_filename
     Sample.calculate_parameters Sample.create_mockups_nothing Sample.uuid4_hex
     Sample.good_request ∅).1
  = inr (Response (Some NO_OUTPUTS) None None 400).
Proof.
  split.
  - destruct (index_reports_missing_outputs 4300 Sample.RUNS_DIR Sample.listdir_order
                Sample.secure_filename Sample.calculate_parameters
                Sample.create_mockups Sample.uuid4_hex sample_listdir_order_spec
                Sample.good_request ∅) as [Hready _].
    destruct (Hready "runs/job1/designs" "runs/job1/mockups"
                {[ "mug.png" := geometry_of Sample.mug_box ]} "runs/job1/output"
                Sample.prepared_files {[ "mug.png" := [] ]})
      as (Hrun & _ & _); [reflexivity|reflexivity|].
    rewrite Hrun. reflexivity.
  - destruct (index_reports_missing_outputs 4300 Sample.RUNS_DIR Sample.listdir_order
                Sample.secure_filename Sample.calculate_parameters
                Sample.create_mockups_nothing Sample.uuid4_hex sample_listdir_order_spec
                Sample.good_request ∅) as [Hready _].
    destruct (Hready "runs/job1/designs" "runs/job1/mockups"
                {[ "mug.png" := geometry_of Sample.mug_box ]} "runs/job1/output"
                Sample.prepared_files ∅)
      as (Hrun & _ & _); [reflexivity|reflexivity|].
    rewrite Hrun. reflexivity.
Defined.

Lemma index_rejects_bad_color_witness :
  parse_color 4300 (form Sample.bad_color_request) = inl HexLengthError ∧
  index 4300 Sample.RUNS_DIR Sample.listdir_order Sample.secure_filename
    Sample.calculate_parameters Sample.create_mockups Sample.uuid4_hex
    Sample.bad_color_request ∅
  = (inr (Response (Some (StrOf HexLengthError)) None None 400), ∅).
Proof.
  split; [reflexivity|].
  apply index_rejects_bad_color; reflexivity.
Defined.

(** A rendering that leaves [b.png], [A.png], [C.JPG], [a.jpeg] and
    [notes.txt]: the page lists the four images, not the text file, in the
    order of their names in lower case, which is not the order of the names
    as they are ([A.png] and [C.JPG] are below [a.jpeg] there). *)
Lemma index_outputs_sorted_witness :
  let names := ["a.jpeg"; "A.png"; "b.png"; "C.JPG"] in
  let fs' := <["runs/job1/output" := Sample.mixed_outputs]> Sample.prepared_files in
  index 4300 Sample.RUNS_DIR Sample.listdir_order Sample.secure_filename
    Sample.calculate_parameters Sample.create_mockups_mixed Sample.uuid4_hex
    Sample.good_request ∅
  = (inr (Response None (Some names) (Some "job1") 200), fs') ∧
  String.ltb "A.png" "a.jpeg" = true ∧
  String.ltb "C.JPG" "a.jpeg" = true ∧
  ∃ entries,
    fs' !! "runs/job1/output" = Some entries ∧
    is_Some (entries !! "notes.txt") ∧
    (∀ name, name ∈ names ↔ is_Some (entries !! name) ∧ allowed_file name = true) ∧
    NoDup names ∧
    StronglySorted lower_le names.
Proof.
  cbv zeta.
  assert (index 4300 Sample.RUNS_DIR Sample.listdir_order Sample.secure_filename
            Sample.calculate_parameters Sample.create_mockups_mixed Sample.uuid4_hex
            Sample.good_request ∅
          = (inr (Response None (Some ["a.jpeg"; "A.png"; "b.png"; "C.JPG"])
                    (Some "job1") 200),
             <["runs/job1/output" := Sample.mixed_outputs]> Sample.prepared_files))
    as Hrun by reflexivity.
  split; [exact Hrun|]. split; [reflexivity|]. split; [reflexivity|].
  destruct (index_outputs_sorted 4300 Sample.RUNS_DIR Sample.listdir_order
              Sample.secure_filename Sample.calculate_parameters
              Sample.create_mockups_mixed Sample.uuid4_hex sample_listdir_order_spec
              Sample.good_request ∅
              (Response None (Some ["a.jpeg"; "A.png"; "b.png"; "C.JPG"])
                 (Some "job1") 200)
              (<["runs/job1/output" := Sample.mixed_outputs]> Sample.prepared_files)
              ["a.jpeg"; "A.png"; "b.png"; "C.JPG"] Hrun eq_refl)
    as (entries & Hdir & Hnames & Hnodup & Hsorted & _).
  exists entries. split_and!; [exact Hdir| |exact Hnames|exact Hnodup|exact Hsorted].
  assert (entries = Sample.mixed_outputs) as -> by (by injection Hdir as <-).
  by eexists.
Defined.

(** ** Further runs *)

Lemma sample_listdir_order_reversed_spec (entries : directory) :
  Sample.listdir_order_reversed entries ≡ₚ (map_to_list entries).*1.
Proof.
  unfold Sample.listdir_order_reversed. symmetry. apply Permutation_rev.
Qed.

Lemma parse_color_hex_bounds_witness :
  in_byte_range 255 ∧ in_byte_range 128 ∧ in_byte_range 0.
Proof.
  assert (hex_field {[ "hex_color" := "#FF8000" ]} ≠ "") as Hhex
    by (vm_compute; discriminate).
  destruct (parse_color_hex_bounds 4300 {[ "hex_color" := "#FF8000" ]} 255 128 0 Hhex)
    as [_ Hbytes]; [reflexivity|].
  apply Hbytes. reflexivity.
Defined.

Lemma parse_color_missing_field_witness :
  parse_color 4300 {[ "g" := "1"; "b" := "2" ]} = inl IntOfNoneError.
Proof.
  destruct (parse_color_missing_field 4300 {[ "g" := "1"; "b" := "2" ]})
    as [_ Hnone]; [reflexivity|by left|].
  by apply Hnone.
Defined.

Lemma parse_color_hex_case_insensitive_witness :
  parse_color 4300 {[ "hex_color" := "#ff8000" ]} = inr (255, 128, 0).
Proof.
  assert (hex_field {[ "hex_color" := "#FF8000" ]} ≠ "") as Hhex
    by (vm_compute; discriminate).
  pose proof (parse_color_hex_case_insensitive 4300 {[ "hex_color" := "#FF8000" ]}
                {[ "hex_color" := "#ff8000" ]} "#FF8000" "#ff8000" (255, 128, 0)
                eq_refl eq_refl eq_refl Hhex) as [Hsame _].
  exact (Hsame eq_refl).
Defined.

Lemma parse_color_reads_hex_text_witness :
  hex_text (255, 128, 0) = "ff8000" ∧
  parse_color 4300 {[ "hex_color" := "#ff8000" ]} = inr (255, 128, 0).
Proof.
  split; [reflexivity|].
  apply parse_color_reads_hex_text; try (unfold in_byte_range; lia).
  left. reflexivity.
Defined.

Lemma allowed_file_stem_and_extension_witness :
  ∃ stem ext,
    "Photo.PNG" = stem +:+ ext ∧ stem ≠ "" ∧
    (Text.lower ext = ".png" ∨ Text.lower ext = ".jpg" ∨ Text.lower ext = ".jpeg").
Proof. apply allowed_file_stem_and_extension. reflexivity. Defined.

Lemma allowed_file_accepts_image_names_witness :
  allowed_file ("mug" +:+ ".JPG") = true.
Proof.
  apply allowed_file_accepts_image_names.
  - discriminate.
  - intros H. repeat (apply elem_of_cons in H as [H|H]; [discriminate H|]).
    by apply elem_of_nil in H.
  - intros c l [= <- _]. discriminate.
  - apply elem_of_ALLOWED_EXTENSIONS. right. left. reflexivity.
Defined.

Lemma allowed_file_rejects_no_extension_witness : allowed_file ".png" = false.
Proof.
  apply allowed_file_rejects_no_extension. right.
  exists ["p"; "n"; "g"]%char. split_and!; [reflexivity| |];
    (intros H; repeat (apply elem_of_cons in H as [H|H]; [discriminate H|]);
     by apply elem_of_nil in H).
Defined.

Lemma build_parameters_order_independent_witness :
  build_parameters Sample.listdir_order Sample.calculate_parameters
    Sample.box_dir Sample.red Sample.boxes
  = build_parameters Sample.listdir_order_reversed Sample.calculate_parameters
      Sample.box_dir Sample.red Sample.boxes.
Proof.
  apply build_parameters_order_independent.
  - apply sample_listdir_order_spec.
  - apply sample_listdir_order_reversed_spec.
Defined.

Lemma build_parameters_keys_witness :
  allowed_file "mug.png" = true ∧
  found (Sample.calculate_parameters Sample.boxes
           (OsPath.join Sample.box_dir "mug.png") Sample.red) = true.
Proof.
  destruct (build_parameters_keys Sample.calculate_parameters Sample.boxes
              Sample.box_dir Sample.red Sample.listdir_order
              {[ "mug.png" := geometry_of Sample.mug_box ]} Sample.boxes
              sample_listdir_order_spec)
    as (_ & entries & _ & Hkeys & _); [reflexivity|].
  destruct (proj1 (Hkeys "mug.png")) as (_ & ? & ?); [by eexists|done].
Defined.

Lemma save_files_last_upload_wins_witness :
  ∃ entries',
    (save_files Sample.secure_filename
       ([Sample.first_mug] ++ Sample.second_mug :: [Sample.png "shirt.jpg"])
       "runs/job1/mockups" {[ "runs/job1/mockups" := ∅ ]}).2
      !! "runs/job1/mockups" = Some entries' ∧
    entries' !! "mug.png" = Some [Byte.x02].
Proof.
  apply (save_files_last_upload_wins Sample.secure_filename
           sample_secure_filename_empty "runs/job1/mockups"
           [Sample.first_mug] Sample.second_mug [Sample.png "shirt.jpg"]
           {[ "runs/job1/mockups" := ∅ ]} ∅).
  - reflexivity.
  - reflexivity.
  - intros g Hg _. apply list_elem_of_singleton in Hg as ->. discriminate.
Defined.

Lemma save_files_twice_witness :
  save_files Sample.secure_filename [Sample.first_mug; Sample.png "notes.txt"]
    "runs/job1/mockups"
    (save_files Sample.secure_filename [Sample.first_mug; Sample.png "notes.txt"]
       "runs/job1/mockups" {[ "runs/job1/mockups" := ∅ ]}).2
  = save_files Sample.secure_filename [Sample.first_mug; Sample.png "notes.txt"]
      "runs/job1/mockups" {[ "runs/job1/mockups" := ∅ ]}.
Proof.
  apply (save_files_twice Sample.secure_filename sample_secure_filename_empty
           "runs/job1/mockups" _ _ ∅).
  reflexivity.
Defined.

Lemma save_files_keeps_allowed_names_witness :
  ∃ entries',
    (save_files Sample.secure_filename [Sample.first_mug; Sample.png "notes.txt"]
       "runs/job1/mockups" {[ "runs/job1/mockups" := {[ "old.jpeg" := [] ]} ]}).2
      !! "runs/job1/mockups" = Some entries' ∧
    (∀ name, is_Some (entries' !! name) → allowed_file name = true).
Proof.
  apply (save_files_keeps_allowed_names Sample.secure_filename
           sample_secure_filename_empty "runs/job1/mockups" _ _
           {[ "old.jpeg" := [] ]}).
  - reflexivity.
  - intros name [d Hd]. apply lookup_singleton_Some in Hd as [<- _]. reflexivity.
Defined.

Lemma index_page_shape_witness :
  Sample.good_request.(method) = POST ∧
  ∃ names, names ≠ [] ∧
    Response None (Some ["mug.png"]) (Some "job1") 200
    = Response None (Some names) (Some Sample.uuid4_hex) 200.
Proof.
  destruct (index_page_shape 4300 Sample.RUNS_DIR Sample.listdir_order
              Sample.secure_filename Sample.calculate_parameters
              Sample.create_mockups Sample.uuid4_hex Sample.good_request ∅
              (Response None (Some ["mug.png"]) (Some "job1") 200)
              (<["runs/job1/output" := {[ "mug.png" := [] ]}]> Sample.prepared_files))
    as [(Hget & _)|(Hpost & [[m Hm]|Hnames])]; [reflexivity|discriminate Hget|discriminate Hm|].
  split; [exact Hpost|exact Hnames].
Defined.

Lemma index_writes_nothing_when_rejected_early_witness :
  ∃ page,
    index 4300 Sample.RUNS_DIR Sample.listdir_order Sample.secure_filename
      Sample.calculate_parameters Sample.create_mockups Sample.uuid4_hex
      Sample.no_upload_request Sample.other_files = (inr page, Sample.other_files).
Proof.
  apply index_writes_nothing_when_rejected_early.
  right. right. left. reflexivity.
Defined.

Lemma index_writes_only_job_directories_witness :
  let fs' :=
    (index 4300 Sample.RUNS_DIR Sample.listdir_order Sample.secure_filename
       Sample.calculate_parameters Sample.create_mockups Sample.uuid4_hex
       Sample.good_request Sample.other_files).2 in
  fs' !! "elsewhere" = Sample.other_files !! "elsewhere" ∧
  Sample.other_files !! "runs/job1" = None ∧
  fs' !! "runs/job1" = Some ∅ ∧
  fs' !! "runs" = Some ∅.
Proof.
  cbv zeta. split; [|split_and!; reflexivity].
  apply (index_writes_only_job_directories 4300 Sample.RUNS_DIR Sample.listdir_order
           Sample.secure_filename Sample.calculate_parameters Sample.create_mockups
           Sample.uuid4_hex sample_secure_filename_empty).
  - intros dd md ps od fs0 d Hd. unfold Sample.create_mockups.
    by rewrite lookup_insert_ne.
  - intros name. unfold Sample.secure_filename. rewrite chars_text.
    intros [_ Hsafe]%list_elem_of_In%filter_In. discriminate Hsafe.
  - intros [k Hk]. discriminate Hk.
  - intros [k Hk]. discriminate Hk.
  - intros [k Hk]. discriminate Hk.
  - intros [k Hk]. discriminate Hk.
Defined.

Lemma index_no_valid_images_iff_witness :
  ∃ fs',
    index 4300 Sample.RUNS_DIR Sample.listdir_order Sample.secure_filename
      Sample.calculate_parameters Sample.create_mockups Sample.uuid4_hex
      Sample.no_image_request ∅ = (inr (error_page NO_VALID_IMAGES), fs').
Proof.
  apply (index_no_valid_images_iff 4300 Sample.RUNS_DIR Sample.listdir_order
           Sample.secure_filename Sample.calculate_parameters Sample.create_mockups
           Sample.uuid4_hex sample_secure_filename_empty sample_listdir_order_spec).
  split_and!; try reflexivity; try discriminate.
  by eexists.
Defined.

Lemma index_no_boxes_iff_witness :
  ∃ fs',
    index 4300 Sample.RUNS_DIR Sample.listdir_order Sample.secure_filename
      Sample.calculate_parameters_blind Sample.create_mockups Sample.uuid4_hex
      Sample.good_request ∅ = (inr (error_page NO_BOXES), fs').
Proof.
  apply (index_no_boxes_iff 4300 Sample.RUNS_DIR Sample.listdir_order
           Sample.secure_filename Sample.calculate_parameters_blind
           Sample.create_mockups Sample.uuid4_hex sample_secure_filename_empty
           sample_listdir_order_spec).
  split_and!; try reflexivity; try discriminate.
  exists Sample.red. split; [reflexivity|]. by intros.
Defined.

Lemma index_late_error_leaves_files_witness :
  is_Some (Sample.no_image_files !! "runs/job1/output") ∧
  ∃ entries,
    Sample.no_image_files !! "runs/job1/mockups" = Some entries ∧
    is_Some (entries !! "mug.png").
Proof.
  destruct (index_late_error_leaves_files 4300 Sample.RUNS_DIR Sample.listdir_order
              Sample.secure_filename Sample.calculate_parameters
              Sample.create_mockups Sample.uuid4_hex sample_secure_filename_empty
              Sample.no_image_request ∅
              (error_page NO_VALID_IMAGES) Sample.no_image_files)
    as ((_ & _ & _ & Hout) & _ & Hmockups & _); [reflexivity|by left|].
  split; [exact Hout|].
  apply (Hmockups (Sample.png "mug.png")); [by left|reflexivity].
Defined.

Lemma serve_output_reads_listed_outputs_witness :
  ∃ job directory entries,
    Some "job1" = Some job ∧
    <["runs/job1/output" := {[ "mug.png" := [] ]}]> Sample.prepared_files
      !! directory = Some entries ∧
    ∀ name, name ∈ ["mug.png"] →
      serve_output Sample.RUNS_DIR unit (λ _ _, mret ()) job name
        = (λ _ _, mret ()) directory name ∧
      is_Some (entries !! name).
Proof.
  apply (serve_output_reads_listed_outputs 4300 Sample.RUNS_DIR Sample.listdir_order
           Sample.secure_filename Sample.calculate_parameters Sample.create_mockups
           Sample.uuid4_hex unit (λ _ _, mret ()) sample_listdir_order_spec
           Sample.good_request ∅
           (Response None (Some ["mug.png"]) (Some "job1") 200)
           (<["runs/job1/output" := {[ "mug.png" := [] ]}]> Sample.prepared_files)
           ["mug.png"]); reflexivity.
Defined.
